(** * download_youtube.py: formatters, history store, progress hook,
      download adapter, search and the batch orchestrators

    A shallow embedding of the helper functions of [download_youtube.py]
    (everything above the Streamlit page script) and of what the page
    script computes around them (the URLs of the batch tab, the statistics
    of the sidebar, the rows of the history tab, the search button, the
    quick download), with the properties its specification states about
    them and further properties the code has.

    Python values are the JSON-like fragment the program handles: [None],
    booleans, integers, strings, lists and dictionaries with string keys.
    Python floats are not values of the embedding; where the program itself
    creates a float from an integer ([float(size_bytes)], [downloaded /
    total]) the float is carried as the exact rational it denotes.

    Everything outside the program (the yt-dlp library, the network, the
    clock) is a parameter: an abstract state [L] and functions on it. *)

From Stdlib Require Import ZArith QArith Qabs String Ascii List DecimalString Lia.
From stdpp Require Import gmap strings list fin_maps.

Set Warnings "-register-all".
Local Open Scope string_scope.
Local Open Scope Z_scope.

(** ** Python values *)

Inductive pyval :=
| VNone
| VBool (b : bool)
| VInt (n : Z)
| VStr (s : string)
| VList (l : list pyval)
| VDict (m : gmap string pyval).

(** Exceptions the modelled code can raise or receive.  All of them are
    subclasses of [Exception]; [LibraryError] stands for whatever the
    external library raises, with its message. *)
Inductive exn :=
| AttributeError
| TypeError
| ValueError
| KeyError
| OverflowError
| JSONDecodeError
| LibraryError (msg : string).

Inductive result (A : Type) :=
| Ok (a : A)
| Raise (e : exn).
Arguments Ok {A} a.
Arguments Raise {A} e.

(** [bool(v)]: the truth value of [v]. *)
Definition truthy (v : pyval) : bool :=
  match v with
  | VNone => false
  | VBool b => b
  | VInt n => negb (n =? 0)
  | VStr s => negb (String.eqb s "")
  | VList l => match l with [] => false | _ :: _ => true end
  | VDict m => negb (Nat.eqb (size m) 0)
  end.

(** [v == 0] for the integer literal [0]; [False == 0] holds in Python. *)
Definition py_eq_zero (v : pyval) : bool :=
  match v with
  | VInt n => n =? 0
  | VBool b => negb b
  | _ => false
  end.

(** [v == s] for a string literal [s]. *)
Definition py_eq_str (v : pyval) (s : string) : bool :=
  match v with
  | VStr t => String.eqb t s
  | _ => false
  end.

(** The integer an [int] or [bool] operand denotes in arithmetic. *)
Definition as_int (v : pyval) : option Z :=
  match v with
  | VInt n => Some n
  | VBool b => Some (if b then 1 else 0)
  | _ => None
  end.

(** [str(n)] for an integer. *)
Definition str_int (n : Z) : string := NilZero.string_of_int (Z.to_int n).

(** [d.get(k, dflt)] on a dictionary. *)
Definition dict_get (d : gmap string pyval) (k : string) (dflt : pyval) : pyval :=
  match d !! k with
  | Some v => v
  | None => dflt
  end.

(** ** Formatter utilities *)

(** [format_duration(seconds)].  [//] and [%] with a positive right operand
    are floor division and its remainder, which is what [Z.div] and
    [Z.modulo] are; on a truthy value that is not a number [seconds // 3600]
    raises [TypeError]. *)
Definition format_duration (seconds : pyval) : result string :=
  if negb (truthy seconds) then Ok "Unknown"
  else
    match as_int seconds with
    | None => Raise TypeError
    | Some n =>
        let hours := n / 3600 in
        let minutes := (n mod 3600) / 60 in
        let seconds := n mod 60 in
        if 0 <? hours
        then Ok (str_int hours ++ ":" ++ str_int minutes ++ ":" ++ str_int seconds)
        else Ok (str_int minutes ++ ":" ++ str_int seconds)
    end.

(** [float(n)] for an integer [n]: the nearest double, ties to even, as the
    integer it denotes; [None] stands for [OverflowError] (the rounded value
    does not fit the exponent range). *)
Definition float_of_int (n : Z) : option Z :=
  let a := Z.abs n in
  let r :=
    if a <? 2 ^ 53 then a
    else
      let e := Z.log2 a - 52 in
      let q := a / 2 ^ e in
      let rem := a mod 2 ^ e in
      let half := 2 ^ (e - 1) in
      let q' := if (half <? rem) || ((rem =? half) && Z.odd q) then q + 1 else q in
      q' * 2 ^ e in
  if 2 ^ 1024 <=? r then None else Some (Z.sgn n * r).

Definition Qltb (x y : Q) : bool := negb (Qle_bool y x).

(** The integer nearest to [num / den] ([den > 0], [num >= 0]), ties to the
    even neighbour. *)
Definition round_half_even (num den : Z) : Z :=
  let fl := num / den in
  match 2 * (num mod den) ?= den with
  | Lt => fl
  | Gt => fl + 1
  | Eq => if Z.even fl then fl else fl + 1
  end.

(** [f"{x:.1f}"] for a finite double [x], given as the rational it denotes:
    the decimal with one fractional digit nearest to the exact value, ties
    to even. *)
Definition format_1f (x : Q) : string :=
  let t := round_half_even (10 * Z.abs (Qnum x)) (QDen x) in
  (if Qnum x <? 0 then "-" else "") ++ str_int (t / 10) ++ "." ++ str_int (t mod 10).

(** The [for unit in ['B', 'KB', 'MB', 'GB']] loop of [format_file_size]
    and the [TB] fall-through after it.  Dividing a double of magnitude at
    least 1024 by [1024.0] is exact, so the rational stays the double's
    value. *)
Fixpoint size_units (size_bytes : Q) (units : list string) : string :=
  match units with
  | [] => format_1f size_bytes ++ " TB"
  | unit :: rest =>
      if Qltb size_bytes 1024 then format_1f size_bytes ++ " " ++ unit
      else size_units (size_bytes / 1024) rest
  end.

(** The specification's reading of the loop: [remaining x k] is the size
    after [k] divisions by 1024; the unit is the first of B, KB, MB, GB for
    which the remaining value is below 1024, else TB, and the remaining
    value is printed with one decimal. *)
Definition unit_names : list string := ["B"; "KB"; "MB"; "GB"; "TB"].

Definition remaining (x : Q) (k : nat) : Q := x / inject_Z (1024 ^ Z.of_nat k).

Definition unit_index (x : Q) : nat :=
  if Qltb (remaining x 0) 1024 then 0%nat
  else if Qltb (remaining x 1) 1024 then 1%nat
  else if Qltb (remaining x 2) 1024 then 2%nat
  else if Qltb (remaining x 3) 1024 then 3%nat
  else 4%nat.

Definition human_size (x : Q) : string :=
  let k := unit_index x in
  format_1f (remaining x k) ++ " " ++ nth k unit_names "TB".

Section Formatters.

(** [float(s)] for a string [s] is the interpreter's literal parser, a
    parameter here: [None] when it raises [ValueError], otherwise the
    finite double it returns.  Literals of infinities, NaN and the
    negative zero are not covered. *)
Variable float_of_str : string -> option Q.

(** [float(v)]. *)
Definition py_float (v : pyval) : result Q :=
  match v with
  | VInt _ | VBool _ =>
      match as_int v ≫= float_of_int with
      | Some f => Ok (inject_Z f)
      | None => Raise OverflowError
      end
  | VStr s =>
      match float_of_str s with
      | Some q => Ok q
      | None => Raise ValueError
      end
  | VNone | VList _ | VDict _ => Raise TypeError
  end.

(** [format_file_size(size_bytes)].  Only [ValueError] and [TypeError]
    are caught. *)
Definition format_file_size (size_bytes : pyval) : result string :=
  if negb (truthy size_bytes) || py_eq_zero size_bytes then Ok "Unknown"
  else
    match py_float size_bytes with
    | Ok size_bytes => Ok (size_units size_bytes ["B"; "KB"; "MB"; "GB"])
    | Raise ValueError | Raise TypeError => Ok "Unknown"
    | Raise e => Raise e
    end.

End Formatters.

(** ** Strings *)

Definition newline : string := String (ascii_of_nat 10) EmptyString.

(** ASCII white space: space, the controls 9..13 and 28..31.  [str.strip]
    also removes white space outside ASCII, which byte strings do not
    distinguish; that part is not covered. *)
Definition is_space (c : ascii) : bool :=
  let n := nat_of_ascii c in
  (Nat.eqb n 32 || (Nat.leb 9 n && Nat.leb n 13) || (Nat.leb 28 n && Nat.leb n 31))%bool.

Fixpoint lstrip (s : string) : string :=
  match s with
  | String c rest => if is_space c then lstrip rest else s
  | EmptyString => EmptyString
  end.

Fixpoint rstrip (s : string) : string :=
  match s with
  | String c rest =>
      match rstrip rest with
      | EmptyString => if is_space c then EmptyString else String c EmptyString
      | rest' => String c rest'
      end
  | EmptyString => EmptyString
  end.

(** [s.strip()]. *)
Definition py_strip (s : string) : string := rstrip (lstrip s).

(** [os.path.basename(p)] on POSIX: what follows the last slash. *)
Fixpoint basename_from (acc p : string) : string :=
  match p with
  | String c rest =>
      if Ascii.eqb c "/" then basename_from EmptyString rest
      else basename_from (acc ++ String c EmptyString) rest
  | EmptyString => acc
  end.

Definition basename (p : string) : string := basename_from EmptyString p.

(** [s.startswith(p)]. *)
Definition startswith (s p : string) : bool := String.prefix p s.

(** ** Configuration *)

Definition DOWNLOADS_DIR : string := "downloads".
Definition PROGRESS_DIR : string := "progress".

(** [os.path.join(a, b)] for two relative POSIX components. *)
Definition path_join (a b : string) : string := a ++ "/" ++ b.

Definition METADATA_FILE : string := path_join PROGRESS_DIR "download_history.json".

(** ** The outside world *)

(** What [METADATA_FILE] holds: text that [json.load] rejects, or the text
    of a JSON value.  [json.dump] followed by [json.load] returns the value
    itself for every [pyval] (string keys, no floats), so a well-formed
    file is identified with the value it holds. *)
Inductive file_content :=
| Malformed
| Json (v : pyval).

(** What the display sink receives.  [UiError label e] is the message
    [label] followed by [str(e)]. *)
Inductive ui_event :=
| UiWrite (text : string)
| UiProgress (value : Q) (text : string)
| UiInfo (text : string)
| UiSuccess (text : string)
| UiWarning (text : string)
| UiError (label : string) (e : exn).

(** Options handed to [YoutubeDL]: the dictionary entries that are plain
    values, and whether a progress hook is registered. *)
Record ydl_opts := {
  params : gmap string pyval;
  progress_hooks : bool
}.

(** Calls into the external library, in the order they are made. *)
Inductive lib_call :=
| CallExtractInfo (opts : ydl_opts) (target : string)
| CallDownload (opts : ydl_opts) (url : string).

(** The state the program runs in: the outside world [lib], the calls made
    into the library so far, the history file (absent before the first
    write) and what the display sink has received so far. *)
Record world (L : Type) := {
  lib : L;
  calls : list lib_call;
  history_file : option file_content;
  ui : list ui_event
}.
Arguments lib {L} w.
Arguments calls {L} w.
Arguments history_file {L} w.
Arguments ui {L} w.

(** The state after the display sink received [evs] more. *)
Definition add_ui {L} (evs : list ui_event) (w : world L) : world L :=
  {| lib := lib w; calls := calls w; history_file := history_file w;
     ui := ui w ++ evs |}.






(** ** A small outside world

    One video that downloads, one whose transfer is refused, one search
    with three entries; every other target is unsupported.  The state of
    the outside world is the number of library calls made. *)
Module Sample.

Definition good_url : string := "https://www.youtube.com/watch?v=abc".
Definition refused_url : string := "https://www.youtube.com/watch?v=def".

Definition video : gmap string pyval :=
  <["title" := VStr "Clip"]>
  (<["webpage_url" := VStr good_url]>
  (<["duration" := VInt 125]>
  (<["uploader" := VStr "Someone"]>
  (<["ext" := VStr "mp4"]> ∅)))).

Definition entries : list pyval :=
  [ VDict (<["id" := VStr "abc"]> (<["title" := VStr "Clip"]> ∅));
    VDict (<["id" := VStr "def"]> (<["url" := VStr refused_url]> ∅));
    VNone ].

Definition response : gmap string pyval := <["entries" := VList entries]> ∅.

Definition downloading : gmap string pyval :=
  <["status" := VStr "downloading"]>
  (<["filename" := VStr "downloads/Clip.mp4"]>
  (<["_percent_str" := VStr " 50.0%"]>
  (<["_speed_str" := VStr "1.2MiB/s"]>
  (<["_eta_str" := VStr "00:03"]>
  (<["downloaded_bytes" := VInt 512]>
  (<["total_bytes" := VInt 1024]> ∅)))))).

Definition finished : gmap string pyval :=
  <["status" := VStr "finished"]>
  (<["filename" := VStr "downloads/Clip.mp4"]> ∅).

Definition extract_info (opts : ydl_opts) (target : string) (l : nat)
  : result pyval * nat :=
  if String.eqb target good_url || String.eqb target refused_url
  then (Ok (VDict video), S l)
  else if String.eqb target "ytsearch10:cats" then (Ok (VDict response), S l)
  else (Raise (LibraryError "Unsupported URL"), S l).

Definition ydl_download (opts : ydl_opts) (url : string) (l : nat)
  : list (gmap string pyval) * option exn * nat :=
  if String.eqb url refused_url
  then ([downloading], Some (LibraryError "HTTP Error 403: Forbidden"), S l)
  else ([downloading; finished], None, S l).

Definition now_isoformat (l : nat) : string := "2024-05-01T12:00:00.000000".

Definition time_sleep (seconds : Z) (l : nat) : nat := l.

Definition repr_container (v : pyval) : string := "[...]".

Definition float_of_str (s : string) : option Q :=
  if String.eqb s "2048" then Some (inject_Z 2048) else None.

(** Before the first download: no calls, no history file, nothing
    displayed. *)
Definition start : world nat :=
  {| lib := 0%nat; calls := []; history_file := None; ui := [] |}.





End Sample.

(** The seven fields of a DownloadRecord. *)
Definition record_keys : gset string :=
  {[ "title"; "url"; "duration"; "uploader"; "download_date";
     "file_size"; "format" ]}.

(** Whether the display sink received an error message. *)
Definition is_error (ev : ui_event) : bool :=
  match ev with
  | UiError _ _ => true
  | _ => false
  end.

(** The three kinds of message a progress hook sends. *)
Definition is_progress_report (ev : ui_event) : bool :=
  match ev with
  | UiProgress _ _ | UiInfo _ | UiSuccess _ => true
  | _ => false
  end.

(** ** The page script: values computed between the widgets *)



(** [sum(values)]: the additions from [0], left to right; adding a value
    that is not a number raises [TypeError]. *)
Fixpoint py_sum (acc : Z) (values : list pyval) : result Z :=
  match values with
  | [] => Ok acc
  | v :: rest =>
      match as_int v with
      | Some n => py_sum (acc + n) rest
      | None => Raise TypeError
      end
  end.

(** [[h.get("duration", 0) for h in history]] over the elements of a
    list; the list is built before anything is added up. *)
Fixpoint record_durations (history : list pyval) : result (list pyval) :=
  match history with
  | [] => Ok []
  | h :: rest =>
      match h with
      | VDict record =>
          match record_durations rest with
          | Ok durations => Ok (dict_get record "duration" (VInt 0) :: durations)
          | Raise e => Raise e
          end
      | _ => Raise AttributeError
      end
  end.

(** The statistics of the sidebar on what [load_download_history]
    returned: nothing on a falsy history, otherwise [total_downloads] and
    the text shown for [total_duration].  A string or a dictionary has a
    length and is iterated, but its elements are strings, which have no
    [get]; other values have no length. *)
Definition history_statistics (history : pyval) : result (option (Z * string)) :=
  if negb (truthy history) then Ok None
  else
    match history with
    | VList records =>
        let total_downloads := Z.of_nat (length records) in
        match record_durations records with
        | Ok durations =>
            match py_sum 0 durations with
            | Ok total_duration =>
                match format_duration (VInt total_duration) with
                | Ok text => Ok (Some (total_downloads, text))
                | Raise e => Raise e
                end
            | Raise e => Raise e
            end
        | Raise e => Raise e
        end
    | VStr _ | VDict _ => Raise AttributeError
    | VNone | VBool _ | VInt _ => Raise TypeError
    end.

(** The records the history tab lists: [reversed(history[-20:])]. *)
Definition recent_records (history : list pyval) : list pyval :=
  rev (drop (length history - 20) history).

(** [len(v)]; the length of a string is its number of characters, bytes
    here. *)
Definition py_len (v : pyval) : result Z :=
  match v with
  | VList l => Ok (Z.of_nat (length l))
  | VStr s => Ok (Z.of_nat (String.length s))
  | VDict m => Ok (Z.of_nat (size m))
  | VNone | VBool _ | VInt _ => Raise TypeError
  end.

(** The two entries of [st.session_state] the search tab keeps. *)
Record session := {
  selected_videos : pyval;
  search_results : pyval
}.

(** [f"{n:,}"]: the decimal digits in groups of three from the right. *)
Fixpoint group3 (rev_digits : list ascii) : list ascii :=
  match rev_digits with
  | a :: b :: c :: (_ :: _) as rest => a :: b :: c :: ","%char :: group3 rest
  | _ => rev_digits
  end.

Definition group_thousands (n : Z) : string :=
  (if n <? 0 then "-" else "") ++
  string_of_list_ascii
    (rev (group3 (rev (list_ascii_of_string (str_int (Z.abs n)))))).

(** [int(x)] of a finite float: truncation towards zero. *)
Definition int_of_float (x : Q) : Z := Z.quot (Qnum x) (QDen x).

Section Program.

(** State of everything outside the program. *)
Variable L : Type.

(** [YoutubeDL(opts).extract_info(target, download=False)]. *)
Variable extract_info : ydl_opts -> string -> L -> result pyval * L.

(** [YoutubeDL(opts).download([url])]: the status dictionaries the
    library hands to the progress hooks, in order, and the exception it
    ends with, if any. *)
Variable ydl_download :
  ydl_opts -> string -> L -> list (gmap string pyval) * option exn * L.

(** [datetime.now().isoformat()]. *)
Variable now_isoformat : L -> string.

(** [time.sleep(seconds)]. *)
Variable time_sleep : Z -> L -> L.

(** [str(v)] of a list or a dictionary. *)
Variable repr_container : pyval -> string.

(** Computations: state passing over [world L], with exceptions. *)
Definition M (A : Type) : Type := world L -> result A * world L.

Definition ret {A} (a : A) : M A := fun w => (Ok a, w).

Definition raise {A} (e : exn) : M A := fun w => (Raise e, w).

Definition bind {A B} (c : M A) (k : A -> M B) : M B :=
  fun w =>
    match c w with
    | (Ok a, w') => k a w'
    | (Raise e, w') => (Raise e, w')
    end.

(** [try: c  except Exception as e: handler(e)]. *)
Definition try_except {A} (c : M A) (handler : exn -> M A) : M A :=
  fun w =>
    match c w with
    | (Ok a, w') => (Ok a, w')
    | (Raise e, w') => handler e w'
    end.

Definition lift {A} (r : result A) : M A := fun w => (r, w).

Definition emit (ev : ui_event) : M unit :=
  fun w => (Ok tt, add_ui [ev] w).

Definition when (b : bool) (c : M unit) : M unit := if b then c else ret tt.

Notation "'do' x <- c ; k" := (bind c (fun x => k))
  (at level 10, x name, c at level 100, k at level 200).
Notation "'run' c ; k" := (bind c (fun _ => k))
  (at level 10, c at level 100, k at level 200).

(** [str(v)], as an f-string field renders [v]. *)
Definition py_str (v : pyval) : string :=
  match v with
  | VNone => "None"
  | VBool b => if b then "True" else "False"
  | VInt n => str_int n
  | VStr s => s
  | VList _ | VDict _ => repr_container v
  end.

(** *** History store *)

Definition load_download_history : M pyval :=
  fun w =>
    match history_file w with
    | None => (Ok (VList []), w)
    | Some Malformed => (Raise JSONDecodeError, w)
    | Some (Json v) => (Ok v, w)
    end.

(** The dictionary literal of [save_download_history]. *)
Definition download_record (video_info : gmap string pyval) (now : string)
  : gmap string pyval :=
  <["title" := dict_get video_info "title" (VStr "Unknown")]>
  (<["url" := dict_get video_info "webpage_url" (VStr "")]>
  (<["duration" := dict_get video_info "duration" (VInt 0)]>
  (<["uploader" := dict_get video_info "uploader" (VStr "Unknown")]>
  (<["download_date" := VStr now]>
  (<["file_size" := dict_get video_info "filesize" (VInt 0)]>
  (<["format" := dict_get video_info "ext" (VStr "unknown")]> ∅)))))).

(** [open(METADATA_FILE, "w")] and [json.dump(v, f, indent=2)]. *)
Definition write_history (v : pyval) : M unit :=
  fun w =>
    (Ok tt, {| lib := lib w; calls := calls w;
               history_file := Some (Json v); ui := ui w |}).

(** [save_download_history(video_info)].  [video_info.get] needs a
    dictionary and [history.append] a list; anything else is an
    [AttributeError]. *)
Definition save_download_history (video_info : pyval) : M unit :=
  do history <- load_download_history;
  match video_info with
  | VDict info =>
      fun w =>
        let download_record := download_record info (now_isoformat (lib w)) in
        match history with
        | VList records => write_history (VList (records ++ [VDict download_record])) w
        | _ => (Raise AttributeError, w)
        end
  | _ => raise AttributeError
  end.

(** The [Clear History] button of the page: [json.dump([], f)]. *)
Definition clear_history : M unit := write_history (VList []).

(** [get_video_info(url)]. *)
Definition info_opts : ydl_opts :=
  {| params := <["quiet" := VBool true]> (<["skip_download" := VBool true]> ∅);
     progress_hooks := false |}.

Definition call_extract_info (opts : ydl_opts) (target : string) : M pyval :=
  fun w =>
    let '(r, l) := extract_info opts target (lib w) in
    (r, {| lib := l; calls := calls w ++ [CallExtractInfo opts target];
           history_file := history_file w; ui := ui w |}).

Definition get_video_info (url : string) : M pyval :=
  call_extract_info info_opts url.

(** *** Progress reporter *)

(** A string-valued entry of the status dictionary, stripped:
    [d.get(key, dflt).strip()]. *)
Definition stripped_field (d : gmap string pyval) (key dflt : string)
  : result string :=
  match dict_get d key (VStr dflt) with
  | VStr s => Ok (py_strip s)
  | _ => Raise AttributeError
  end.

(** [d.get('total_bytes', d.get('total_bytes_estimate', 0))]. *)
Definition event_total (d : gmap string pyval) : pyval :=
  dict_get d "total_bytes" (dict_get d "total_bytes_estimate" (VInt 0)).

(** [total and total > 0]: the comparison is only evaluated on a truthy
    [total], and raises [TypeError] on one that is not a number. *)
Definition total_is_positive (total : pyval) : result bool :=
  if truthy total then
    match as_int total with
    | Some t => Ok (0 <? t)
    | None => Raise TypeError
    end
  else Ok false.

(** [downloaded / total] for a positive [total]: true division of
    integers, which raises [OverflowError] when the quotient rounds
    beyond the largest double.  The quotient is carried exactly; the
    double the program holds is the one nearest to it. *)
Definition true_div (downloaded total : pyval) : result Q :=
  match as_int downloaded, as_int total with
  | Some a, Some t =>
      let q := Qmake a (Z.to_pos t) in
      if Qle_bool (inject_Z (2 ^ 1024 - 2 ^ 970)) (Qabs q)
      then Raise OverflowError
      else Ok q
  | _, _ => Raise TypeError
  end.

(** [min(x, 1.0)]. *)
Definition min_one (x : Q) : Q := if Qltb 1 x then 1 else x.

(** The two f-strings that make up [status_text]. *)
Definition status_text (filename percent_str speed eta : string) : string :=
  "**Downloading:** " ++ filename ++ newline ++
  "📊 Progress: " ++ percent_str ++ " | 🚀 Speed: " ++ speed ++
  " | ⏱️ ETA: " ++ eta.

(** The closure [progress_hook(d)] returned by
    [DownloadProgress.create_progress_hook(video_id, container)]; neither
    [video_id] nor [self] is read by it. *)
Definition progress_hook (d : gmap string pyval) : M unit :=
  do filename <- lift (match dict_get d "filename" (VStr "Unknown") with
                       | VStr p => Ok (basename p)
                       | _ => Raise TypeError
                       end);
  do status <- lift (match d !! "status" with
                     | Some v => Ok v
                     | None => Raise KeyError
                     end);
  if py_eq_str status "downloading" then
      do percent_str <- lift (stripped_field d "_percent_str" "0%");
      do speed <- lift (stripped_field d "_speed_str" "0KB/s");
      do eta <- lift (stripped_field d "_eta_str" "Unknown");
      let downloaded := dict_get d "downloaded_bytes" (VInt 0) in
      let total := event_total d in
      do positive <- lift (total_is_positive total);
      run (if positive : bool then
             do ratio <- lift (true_div downloaded total);
             emit (UiProgress (min_one ratio) ("📥 " ++ filename))
           else ret tt);
      emit (UiInfo (status_text filename percent_str speed eta))
  else if py_eq_str status "finished" then
      emit (UiSuccess ("✅ **Download Complete:** " ++ filename))
  else ret tt.

(** *** Download adapter *)

(** The library calls every registered hook on each status dictionary;
    an exception raised by a hook ends the call. *)
Fixpoint run_hooks (events : list (gmap string pyval)) : M unit :=
  match events with
  | [] => ret tt
  | d :: rest => run progress_hook d; run_hooks rest
  end.

(** [with YoutubeDL(ydl_opts) as ydl: ydl.download([url])]. *)
Definition call_download (opts : ydl_opts) (url : string) : M unit :=
  fun w =>
    let '(events, outcome, l) := ydl_download opts url (lib w) in
    let w1 := {| lib := l; calls := calls w ++ [CallDownload opts url];
                 history_file := history_file w; ui := ui w |} in
    if progress_hooks opts then
      bind (run_hooks events)
           (fun _ => match outcome with
                     | Some e => raise e
                     | None => ret tt
                     end) w1
    else
      match outcome with
      | Some e => (Raise e, w1)
      | None => (Ok tt, w1)
      end.

(** Evaluating line 121 ([video_id = ... if 'v=' in url else
    str(hash(url))]) on the argument: a string passes (the value
    computed is never used); on any other value the membership test, the
    [split] or the [hash] raises. *)
Definition url_arg (url : pyval) : result string :=
  match url with
  | VStr s => Ok s
  | VList l =>
      if existsb (fun x => py_eq_str x "v=") l
      then Raise AttributeError else Raise TypeError
  | VDict m =>
      match m !! "v=" with
      | Some _ => Raise AttributeError
      | None => Raise TypeError
      end
  | VNone | VBool _ | VInt _ => Raise TypeError
  end.

Definition output_template : string :=
  path_join DOWNLOADS_DIR "%(title)s.%(ext)s".

Definition audio_opts : gmap string pyval :=
  <["format" := VStr "bestaudio/best"]>
  (<["outtmpl" := VStr output_template]>
  (<["postprocessors" :=
       VList [VDict (<["key" := VStr "FFmpegExtractAudio"]>
                    (<["preferredcodec" := VStr "mp3"]>
                    (<["preferredquality" := VStr "192"]> ∅)))]]> ∅)).

Definition format_selector (quality : string) : string :=
  if String.eqb quality "best" then "best[height<=1080]"
  else if String.eqb quality "720p" then "best[height<=720]"
  else if String.eqb quality "480p" then "best[height<=480]"
  else "best".

Definition video_opts (quality : string) : gmap string pyval :=
  <["format" := VStr (format_selector quality)]>
  (<["outtmpl" := VStr output_template]> ∅).

(** [download_video_advanced(url, audio_only, quality,
    progress_container)]; [progress_container] is whether a display
    container was passed. *)
Definition download_video_advanced (url : pyval) (audio_only : bool)
    (quality : string) (progress_container : bool) : M bool :=
  do url <- lift (url_arg url);
  do fetched <-
    try_except (do video_info <- get_video_info url; ret (Some video_info))
               (fun e =>
                  run when progress_container
                        (emit (UiError "❌ Error getting video info: " e));
                  ret None);
  match fetched with
  | None => ret false
  | Some video_info =>
      let ydl_opts :=
        {| params := if audio_only then audio_opts else video_opts quality;
           progress_hooks := progress_container |} in
      try_except
        (run call_download ydl_opts url;
         run save_download_history video_info;
         ret true)
        (fun e =>
           run when progress_container
                 (emit (UiError "❌ Download failed: " e));
           ret false)
  end.

(** *** Batch orchestrators *)

Definition processing_header (i n : nat) : string :=
  "### Processing Video " ++ str_int (Z.of_nat i) ++ "/" ++ str_int (Z.of_nat n).

(** The [for i, url in enumerate(urls, 1)] loop of
    [download_multiple_videos], from index [i] on, carrying the two
    counters. *)
Fixpoint batch_loop (n i : nat) (urls : list string) (audio_only : bool)
    (quality : string) (successful_downloads failed_downloads : nat)
  : M (nat * nat) :=
  match urls with
  | [] => ret (successful_downloads, failed_downloads)
  | url :: rest =>
      run emit (UiWrite (processing_header i n));
      do ok <- download_video_advanced (VStr url) audio_only quality true;
      if ok : bool
      then batch_loop n (S i) rest audio_only quality
             (S successful_downloads) failed_downloads
      else batch_loop n (S i) rest audio_only quality
             successful_downloads (S failed_downloads)
  end.

Definition batch_summary (successful_downloads failed_downloads : nat) : string :=
  "✅ Batch download complete!" ++ newline ++
  "✅ Successful: " ++ str_int (Z.of_nat successful_downloads) ++
  " | ❌ Failed: " ++ str_int (Z.of_nat failed_downloads).

(** [download_multiple_videos(urls, audio_only, quality)]. *)
Definition download_multiple_videos (urls : list string) (audio_only : bool)
    (quality : string) : M unit :=
  do tally <- batch_loop (length urls) 1 urls audio_only quality 0 0;
  emit (UiSuccess (batch_summary (fst tally) (snd tally))).

Definition watch_url (id : pyval) : string :=
  "https://www.youtube.com/watch?v=" ++ py_str id.

(** [f"**Title:** {video_data.get('title', 'Unknown')}"]. *)
Definition selected_title (video_data : gmap string pyval) : string :=
  "**Title:** " ++ py_str (dict_get video_data "title" (VStr "Unknown")).

(** [video_url]: the entry's url, or the watch URL of its id when the
    url is missing or falsy. *)
Definition selected_url (video_data : gmap string pyval) : pyval :=
  let video_url := dict_get video_data "url" VNone in
  if negb (truthy video_url)
  then VStr (watch_url (dict_get video_data "id" (VStr "")))
  else video_url.

(** [time.sleep(seconds)]. *)
Definition sleep (seconds : Z) : M unit :=
  fun w => (Ok tt, {| lib := time_sleep seconds (lib w); calls := calls w;
                      history_file := history_file w; ui := ui w |}).

(** The loop of [download_selected_videos]. *)
Fixpoint selected_loop (n i : nat) (selected_videos : list pyval)
    (audio_only : bool) (quality : string)
    (successful_downloads failed_downloads : nat) : M (nat * nat) :=
  match selected_videos with
  | [] => ret (successful_downloads, failed_downloads)
  | video_data :: rest =>
      run emit (UiWrite (processing_header i n));
      match video_data with
      | VDict video_data =>
          run emit (UiWrite (selected_title video_data));
          let video_url := selected_url video_data in
          do ok <- download_video_advanced video_url audio_only quality true;
          run sleep 1;
          if ok : bool
          then selected_loop n (S i) rest audio_only quality
                 (S successful_downloads) failed_downloads
          else selected_loop n (S i) rest audio_only quality
                 successful_downloads (S failed_downloads)
      | _ => raise AttributeError
      end
  end.

Definition selected_summary (successful_downloads failed_downloads : nat) : string :=
  "✅ Selected downloads complete!" ++ newline ++
  "✅ Successful: " ++ str_int (Z.of_nat successful_downloads) ++
  " | ❌ Failed: " ++ str_int (Z.of_nat failed_downloads).

(** [download_selected_videos(selected_videos, audio_only, quality)]. *)
Definition download_selected_videos (selected_videos : list pyval)
    (audio_only : bool) (quality : string) : M unit :=
  match selected_videos with
  | [] => emit (UiWarning "⚠️ No videos selected for download")
  | _ :: _ =>
      do tally <- selected_loop (length selected_videos) 1 selected_videos
                    audio_only quality 0 0;
      emit (UiSuccess (selected_summary (fst tally) (snd tally)))
  end.

(** *** Search *)

Definition search_opts : ydl_opts :=
  {| params := <["quiet" := VBool true]>
               (<["skip_download" := VBool true]>
               (<["extract_flat" := VBool true]> ∅));
     progress_hooks := false |}.

(** The body of the [for entry in entries] loop: the entry after it.
    [entry.get] exists on dictionaries only and [startswith] on strings
    only. *)
Definition resolve_entry (entry : pyval) : result pyval :=
  if negb (truthy entry) then Ok entry
  else
    match entry with
    | VDict fields =>
        let id := dict_get fields "id" VNone in
        if truthy id then
          let url := dict_get fields "url" VNone in
          let rewrite := Ok (VDict (<["url" := VStr (watch_url id)]> fields)) in
          if negb (truthy url) then rewrite
          else
            match url with
            | VStr u => if negb (startswith u "http") then rewrite else Ok entry
            | _ => Raise AttributeError
            end
        else Ok entry
    | _ => Raise AttributeError
    end.

(** The loop itself, which stops at the first exception. *)
Fixpoint resolve_entries (entries : list pyval) : result (list pyval) :=
  match entries with
  | [] => Ok []
  | entry :: rest =>
      match resolve_entry entry with
      | Ok entry' =>
          match resolve_entries rest with
          | Ok rest' => Ok (entry' :: rest')
          | Raise e => Raise e
          end
      | Raise e => Raise e
      end
  end.

(** What [for entry in v] ranges over: the elements of a list, the
    characters of a string (here its bytes, each a non-empty string), the
    keys of a dictionary; other values are not iterable. *)
Definition py_iter (v : pyval) : result (list pyval) :=
  match v with
  | VList l => Ok l
  | VStr s => Ok ((fun c => VStr (String c EmptyString)) <$> list_ascii_of_string s)
  | VDict m => Ok ((fun kv => VStr (fst kv)) <$> map_to_list m)
  | VNone | VBool _ | VInt _ => Raise TypeError
  end.

(** The argument of [extract_info]: the query itself in playlist mode,
    the prefixed query otherwise. *)
Definition search_target (query : string) (max_results : pyval)
    (search_type : string) : string :=
  let search_prefix := "ytsearch" ++ py_str max_results ++ ":" in
  let search_prefix :=
    if String.eqb search_type "playlist" then "ytplaylist:" else search_prefix in
  if String.eqb search_type "playlist" then query
  else search_prefix ++ query.

(** [search_youtube_advanced(query, max_results, search_type)].  The
    entries are updated in place and the same object is returned; a list
    comes back with its entries resolved, any other iterable that gets
    through the loop comes back as it is. *)
Definition search_youtube_advanced (query : string) (max_results : pyval)
    (search_type : string) : M pyval :=
  try_except
    (do result <- call_extract_info search_opts
                    (search_target query max_results search_type);
     do entries <- lift (match result with
                         | VDict r => Ok (dict_get r "entries" (VList []))
                         | _ => Raise AttributeError
                         end);
     do items <- lift (py_iter entries);
     do resolved <- lift (resolve_entries items);
     ret (match entries with
          | VList _ => VList resolved
          | _ => entries
          end))
    (fun e => run emit (UiError "Search error: " e); ret (VList [])).

(** *** Runs of the orchestrators, as the specification describes them *)

(** [batch_attempts audio_only quality n i urls w oks w']: starting in
    [w] with the [i]-th target, [download_video_advanced] is invoked once
    on each of [urls], in order, each time after the progress header has
    been written and in the state the previous invocation left; [oks]
    are the values it returned and [w'] is the state after the last. *)
Inductive batch_attempts (audio_only : bool) (quality : string) (n : nat)
  : nat -> list string -> world L -> list bool -> world L -> Prop :=
| batch_attempts_nil i w :
    batch_attempts audio_only quality n i [] w [] w
| batch_attempts_cons i url urls w ok w1 oks w2 :
    download_video_advanced (VStr url) audio_only quality true
      (add_ui [UiWrite (processing_header i n)] w) = (Ok ok, w1) ->
    batch_attempts audio_only quality n (S i) urls w1 oks w2 ->
    batch_attempts audio_only quality n i (url :: urls) w (ok :: oks) w2.

(** The same for a selection: the target of an entry is [selected_url],
    header and title are written before the invocation and the pause
    follows it. *)
Inductive selected_attempts (audio_only : bool) (quality : string) (n : nat)
  : nat -> list (gmap string pyval) -> world L -> list bool -> world L -> Prop :=
| selected_attempts_nil i w :
    selected_attempts audio_only quality n i [] w [] w
| selected_attempts_cons i video_data rest w ok w1 w2 oks w3 :
    download_video_advanced (selected_url video_data) audio_only quality true
      (add_ui [UiWrite (processing_header i n);
               UiWrite (selected_title video_data)] w) = (Ok ok, w1) ->
    sleep 1 w1 = (Ok tt, w2) ->
    selected_attempts audio_only quality n (S i) rest w2 oks w3 ->
    selected_attempts audio_only quality n i (video_data :: rest) w (ok :: oks) w3.

(** The number of failures among the results. *)
Fixpoint failures (oks : list bool) : nat :=
  match oks with
  | [] => 0
  | ok :: rest => (if ok then 0 else 1) + failures rest
  end%nat.

(** What the specification says of a run over [urls]: one invocation per
    target, in order, and a final tally of [n - k] successes and [k]
    failures, [k] being the number of invocations that failed. *)
Definition batch_tally_spec (urls : list string) (audio_only : bool)
    (quality : string) (w : world L) : Prop :=
  let n := length urls in
  exists oks w1,
    batch_attempts audio_only quality n 1 urls w oks w1 /\
    length oks = n /\
    download_multiple_videos urls audio_only quality w =
      (Ok tt, add_ui [UiSuccess (batch_summary (n - failures oks) (failures oks))] w1).

Definition selected_tally_spec (selection : list (gmap string pyval))
    (audio_only : bool) (quality : string) (w : world L) : Prop :=
  let n := length selection in
  exists oks w1,
    selected_attempts audio_only quality n 1 selection w oks w1 /\
    length oks = n /\
    download_selected_videos (VDict <$> selection) audio_only quality w =
      (Ok tt, add_ui [UiSuccess (selected_summary (n - failures oks) (failures oks))] w1).

(** The targets of the metadata fetches among the library calls. *)
Definition fetch_targets (cs : list lib_call) : list string :=
  omap (fun c => match c with
                 | CallExtractInfo _ target => Some target
                 | CallDownload _ _ => None
                 end) cs.

(** A selection entry as the search hands it over: a dictionary whose
    url, when present, is a string or [None]. *)
Definition is_selectable (video_data : gmap string pyval) : bool :=
  match video_data !! "url" with
  | None | Some VNone | Some (VStr _) => true
  | Some _ => false
  end.

(** The history is readable: the file is absent or holds a JSON list.
    The program itself never writes anything else to it. *)
Definition history_ok (w : world L) : Prop :=
  exists records, fst (load_download_history w) = Ok (VList records).

(** *** Search entries, as the specification describes them *)

(** An entry lacks a direct URL when its url is missing, falsy, or a
    string that does not start with "http". *)
Definition lacks_direct_url (fields : gmap string pyval) : bool :=
  match fields !! "url" with
  | None => true
  | Some v =>
      negb (truthy v) ||
      match v with
      | VStr u => negb (startswith u "http")
      | _ => false
      end
  end.

(** An entry as the library hands it over: [None], or a dictionary whose
    url, when present, is a string or [None]. *)
Definition is_entry (entry : pyval) : bool :=
  match entry with
  | VNone => true
  | VDict fields => is_selectable fields
  | _ => false
  end.

(** *** The page script: what the buttons do *)


(** The statistics block of the sidebar (lines 322-334).  The two
    [st.metric] values are the result; [None] stands for the branch that
    shows "No downloads yet!" instead. *)
Definition sidebar_statistics : M (option (Z * string)) :=
  do history <- load_download_history;
  do statistics <- lift (history_statistics history);
  match statistics with
  | Some _ => ret statistics
  | None => run emit (UiInfo "No downloads yet!"); ret None
  end.

(** The "Search" button (lines 416-429), on the session state it finds;
    the result is the session state it leaves. *)
Definition search_click (search_query : string) (max_results : pyval)
    (search_type : string) (state : session) : M session :=
  if truthy (VStr search_query) then
    do videos <- search_youtube_advanced search_query max_results search_type;
    if negb (truthy videos) then
      run emit (UiInfo "🤷‍♂️ No videos found.");
      ret {| selected_videos := selected_videos state;
             search_results := VList [] |}
    else
      do found <- lift (py_len videos);
      run emit (UiSuccess ("✅ Found " ++ str_int found ++ " results"));
      ret {| selected_videos := VList []; search_results := videos |}
  else
    run emit (UiWarning "⚠️ Please enter a search term");
    ret state.

(** The "Views" line of the quick download: the inner [try] of lines
    375-383, with its fallback on [ValueError] and [TypeError]. *)
Definition views_text (float_of_str : string -> option Q)
    (video_info : gmap string pyval) : result string :=
  let view_count := dict_get video_info "view_count" (VInt 0) in
  let shown :=
    if truthy view_count then
      match py_float float_of_str view_count with
      | Ok x => Ok ("**Views:** " ++ group_thousands (int_of_float x))
      | Raise e => Raise e
      end
    else Ok "**Views:** Unknown" in
  match shown with
  | Raise ValueError | Raise TypeError =>
      Ok ("**Views:** " ++ py_str (dict_get video_info "view_count" (VStr "Unknown")))
  | _ => shown
  end.

(** The "Download Now" button of the quick download tab (lines 359-396):
    the metadata is fetched and shown, then [download_video_advanced]
    runs with a display container; whatever is raised on the way ends up
    in one error message. *)
Definition quick_download (float_of_str : string -> option Q)
    (quick_url : string) (audio_only_quick : bool) (quality_option : string)
  : M unit :=
  if truthy (VStr quick_url) then
    try_except
      (do video_info <- get_video_info quick_url;
       do video_info <- lift (match video_info with
                              | VDict fields => Ok fields
                              | _ => Raise AttributeError
                              end);
       run emit (UiInfo ("**Title:** " ++
                         py_str (dict_get video_info "title" (VStr "Unknown"))));
       do duration <- lift (format_duration (dict_get video_info "duration" VNone));
       run emit (UiInfo ("**Duration:** " ++ duration));
       run emit (UiInfo ("**Uploader:** " ++
                         py_str (dict_get video_info "uploader" (VStr "Unknown"))));
       do views <- lift (views_text float_of_str video_info);
       run emit (UiInfo views);
       do success <- download_video_advanced (VStr quick_url) audio_only_quick
                       quality_option true;
       ret tt)
      (fun e => emit (UiError "❌ Error: " e))
  else emit (UiWarning "⚠️ Please enter a valid YouTube URL").


(** * Properties *)

(** Unfolding the plumbing of [M]. *)
Ltac unfold_m :=
  unfold bind, try_except, lift, ret, raise, when, emit, write_history in *.

(** ** History store *)

Lemma download_record_keys (info : gmap string pyval) (now : string) :
  dom (download_record info now) = record_keys.
Proof.
  unfold download_record, record_keys.
  rewrite !dom_insert_L, dom_empty_L. set_solver.
Qed.

Lemma save_download_history_inv (video_info : pyval) (w w' : world L) :
  save_download_history video_info w = (Ok tt, w') ->
  exists info records,
    video_info = VDict info /\
    fst (load_download_history w) = Ok (VList records) /\
    w' = {| lib := lib w; calls := calls w;
            history_file :=
              Some (Json (VList (records ++
                 [VDict (download_record info (now_isoformat (lib w)))])));
            ui := ui w |}.
Proof.
  unfold save_download_history, load_download_history. unfold_m.
  destruct (history_file w) as [[| v] |]; try discriminate.
  - destruct video_info; try discriminate.
    destruct v; try discriminate.
    intros [= <-]. eauto.
  - destruct video_info; try discriminate.
    intros [= <-]. eauto.
Qed.

(** C9.  Whatever [save_download_history] appends to the history is a
    dictionary with exactly the seven fields title, url, duration,
    uploader, download_date, file_size and format; a field whose
    metadata key is absent holds its default ("Unknown", the empty
    string, 0, "Unknown", 0, "unknown"), and otherwise the metadata's
    value. *)
Theorem appended_record_fields (video_info : pyval) (w w' : world L) :
  save_download_history video_info w = (Ok tt, w') ->
  exists info records r,
    video_info = VDict info /\
    history_file w' = Some (Json (VList (records ++ [VDict r]))) /\
    dom r = record_keys /\
    (info !! "title" = None -> r !! "title" = Some (VStr "Unknown")) /\
    (info !! "webpage_url" = None -> r !! "url" = Some (VStr "")) /\
    (info !! "duration" = None -> r !! "duration" = Some (VInt 0)) /\
    (info !! "uploader" = None -> r !! "uploader" = Some (VStr "Unknown")) /\
    (info !! "filesize" = None -> r !! "file_size" = Some (VInt 0)) /\
    (info !! "ext" = None -> r !! "format" = Some (VStr "unknown")) /\
    (forall v, info !! "title" = Some v -> r !! "title" = Some v) /\
    (forall v, info !! "webpage_url" = Some v -> r !! "url" = Some v) /\
    (forall v, info !! "duration" = Some v -> r !! "duration" = Some v) /\
    (forall v, info !! "uploader" = Some v -> r !! "uploader" = Some v) /\
    (forall v, info !! "filesize" = Some v -> r !! "file_size" = Some v) /\
    (forall v, info !! "ext" = Some v -> r !! "format" = Some v) /\
    r !! "download_date" = Some (VStr (now_isoformat (lib w))).
Proof.
  intros Hsave.
  destruct (save_download_history_inv _ _ _ Hsave) as (info & records & -> & _ & ->).
  exists info, records, (download_record info (now_isoformat (lib w))).
  split; [reflexivity |]. split; [reflexivity |].
  split; [apply download_record_keys |].
  unfold download_record, dict_get.
  repeat split; try (intros v Hv); try intros Hv;
    simplify_map_eq; reflexivity.
Qed.

Lemma save_download_history_appends (info : gmap string pyval)
    (records : list pyval) (w : world L) :
  fst (load_download_history w) = Ok (VList records) ->
  save_download_history (VDict info) w =
    (Ok tt, {| lib := lib w; calls := calls w;
               history_file :=
                 Some (Json (VList (records ++
                    [VDict (download_record info (now_isoformat (lib w)))])));
               ui := ui w |}).
Proof.
  intros Hload.
  unfold save_download_history, load_download_history in *. unfold_m.
  destruct (history_file w) as [[| v] |]; cbn in Hload; try discriminate.
  - injection Hload as ->. reflexivity.
  - injection Hload as <-. reflexivity.
Qed.

(** C2.  With a history that loads as the sequence [records], saving
    succeeds, and loading afterwards yields a sequence whose last element
    is the new record and whose elements before it are [records]. *)
Theorem history_round_trip (info : gmap string pyval) (records : list pyval)
    (w : world L) :
  fst (load_download_history w) = Ok (VList records) ->
  let r := VDict (download_record info (now_isoformat (lib w))) in
  exists w' after,
    save_download_history (VDict info) w = (Ok tt, w') /\
    fst (load_download_history w') = Ok (VList after) /\
    last after = Some r /\
    take (length records) after = records /\
    after = (records ++ [r])%list.
Proof.
  intros Hload r.
  eexists _, (records ++ [r])%list.
  split; [apply save_download_history_appends, Hload |].
  split; [reflexivity |].
  split; [apply last_snoc |].
  split; [| reflexivity].
  rewrite take_app_length. reflexivity.
Qed.

(** ** Frames: what each operation leaves alone *)

Lemma add_ui_nil (w : world L) : add_ui [] w = w.
Proof. destruct w. unfold add_ui; cbn. rewrite app_nil_r. reflexivity. Qed.

Lemma add_ui_add_ui (a b : list ui_event) (w : world L) :
  add_ui b (add_ui a w) = add_ui (a ++ b) w.
Proof. unfold add_ui; cbn. rewrite app_assoc. reflexivity. Qed.

(** The hook only writes to the display sink, and what it writes depends
    on the status dictionary alone. *)
Lemma progress_hook_frame (d : gmap string pyval) :
  exists r evs, forall w, progress_hook d w = (r, add_ui evs w).
Proof.
  unfold progress_hook. unfold_m.
  destruct (dict_get d "filename" (VStr "Unknown"));
    try (exists (Raise TypeError), []; intros w; rewrite add_ui_nil; reflexivity).
  destruct (d !! "status") as [status |];
    [| exists (Raise KeyError), []; intros w; rewrite add_ui_nil; reflexivity].
  destruct (py_eq_str status "downloading").
  - destruct (stripped_field d "_percent_str" "0%") as [p | e];
      [| exists (Raise e), []; intros w; rewrite add_ui_nil; reflexivity].
    destruct (stripped_field d "_speed_str" "0KB/s") as [sp | e];
      [| exists (Raise e), []; intros w; rewrite add_ui_nil; reflexivity].
    destruct (stripped_field d "_eta_str" "Unknown") as [eta | e];
      [| exists (Raise e), []; intros w; rewrite add_ui_nil; reflexivity].
    destruct (total_is_positive (event_total d)) as [[|] | e];
      [| | exists (Raise e), []; intros w; rewrite add_ui_nil; reflexivity].
    + destruct (true_div _ _) as [q | e];
        [| exists (Raise e), []; intros w; rewrite add_ui_nil; reflexivity].
      eexists (Ok tt), [_; _]. intros w. rewrite add_ui_add_ui. reflexivity.
    + eexists (Ok tt), [_]. intros w. reflexivity.
  - destruct (py_eq_str status "finished").
    + eexists (Ok tt), [_]. intros w. reflexivity.
    + exists (Ok tt), []. intros w. rewrite add_ui_nil. reflexivity.
Qed.

(** ** Progress reporter *)







(** ** Download adapter *)

Lemma run_hooks_frame (events : list (gmap string pyval)) :
  exists r evs, forall w, run_hooks events w = (r, add_ui evs w).
Proof.
  induction events as [| d rest (r & evs & IH)]; cbn [run_hooks].
  - exists (Ok tt), []. intros w. unfold ret. rewrite add_ui_nil. reflexivity.
  - destruct (progress_hook_frame d) as ([[] | e] & evs0 & Hd).
    + exists r, (evs0 ++ evs)%list. intros w. unfold bind.
      rewrite Hd, IH, add_ui_add_ui. reflexivity.
    + exists (Raise e), evs0. intros w. unfold bind. rewrite Hd. reflexivity.
Qed.

Lemma get_video_info_history (url : string) (w w1 : world L) (r : result pyval) :
  get_video_info url w = (r, w1) -> history_file w1 = history_file w.
Proof.
  unfold get_video_info, call_extract_info.
  destruct (extract_info _ _ _). intros [= _ <-]. reflexivity.
Qed.

Lemma call_download_history (opts : ydl_opts) (url : string) (w w1 : world L)
    (r : result unit) :
  call_download opts url w = (r, w1) -> history_file w1 = history_file w.
Proof.
  unfold call_download.
  destruct (ydl_download _ _ _) as [[events outcome] l].
  destruct (progress_hooks opts).
  - destruct (run_hooks_frame events) as (r0 & evs & Hrun).
    unfold bind. rewrite Hrun.
    destruct r0 as [[] | e]; [destruct outcome |]; unfold raise, ret;
      intros [= _ <-]; reflexivity.
  - destruct outcome; intros [= _ <-]; reflexivity.
Qed.

Lemma load_download_history_frame (w w1 : world L) :
  history_file w1 = history_file w ->
  fst (load_download_history w1) = fst (load_download_history w).
Proof.
  unfold load_download_history. intros ->.
  destruct (history_file w) as [[] |]; reflexivity.
Qed.

Lemma save_download_history_keeps_ok (video_info : pyval) (w w1 : world L)
    (r : result unit) :
  history_ok w -> save_download_history video_info w = (r, w1) -> history_ok w1.
Proof.
  intros [records Hload].
  unfold history_ok, save_download_history, load_download_history in *. unfold_m.
  destruct (history_file w) as [[| v] |] eqn:Hfile; cbn in Hload; try discriminate.
  - injection Hload as ->.
    destruct video_info; intros [= _ <-]; cbn; rewrite ?Hfile; eauto.
  - destruct video_info; intros [= _ <-]; cbn; rewrite ?Hfile; eauto.
Qed.

(** The initial state and whatever [download_video_advanced] and
    [clear_history] leave behind have a readable history. *)
Lemma history_ok_absent (w : world L) : history_file w = None -> history_ok w.
Proof. intros H. exists []. unfold load_download_history. rewrite H. reflexivity. Qed.

Lemma clear_history_empty (w : world L) :
  fst (load_download_history (snd (clear_history w))) = Ok (VList []).
Proof. reflexivity. Qed.

Lemma history_ok_add_ui (evs : list ui_event) (w : world L) :
  history_ok w -> history_ok (add_ui evs w).
Proof.
  intros [records H]. exists records. rewrite <- H.
  apply load_download_history_frame. reflexivity.
Qed.

Lemma download_video_advanced_keeps_ok (url : pyval) (audio_only : bool)
    (quality : string) (progress_container : bool) (w w' : world L)
    (r : result bool) :
  history_ok w ->
  download_video_advanced url audio_only quality progress_container w = (r, w') ->
  history_ok w'.
Proof.
  intros Hok. unfold download_video_advanced.
  unfold bind at 1. unfold lift at 1.
  destruct (url_arg url) as [u | e]; [| intros [= _ <-]; exact Hok].
  unfold bind at 1. unfold try_except at 1. unfold bind at 1.
  destruct (get_video_info u w) as [[video_info | e] w1] eqn:Hfetch;
    pose proof (get_video_info_history _ _ _ _ Hfetch) as Hh1.
  - unfold ret at 1. unfold try_except. unfold bind at 1.
    destruct (call_download _ u w1) as [[[] | e] w2] eqn:Hdl;
      pose proof (call_download_history _ _ _ _ _ Hdl) as Hh2.
    + assert (Hok2 : history_ok w2).
      { destruct Hok as [records Hload]. exists records. rewrite <- Hload.
        apply load_download_history_frame. congruence. }
      unfold bind at 1.
      destruct (save_download_history video_info w2) as [[[] | e] w3] eqn:Hsave;
        pose proof (save_download_history_keeps_ok _ _ _ _ Hok2 Hsave) as Hok3.
      * unfold ret. intros [= _ <-]. exact Hok3.
      * unfold bind, when, emit, ret.
        destruct progress_container; intros [= _ <-];
          try apply history_ok_add_ui; exact Hok3.
    + unfold bind, when, emit, ret.
      destruct Hok as [records Hload].
      destruct progress_container; intros [= _ <-]; exists records;
        rewrite <- Hload; apply load_download_history_frame; cbn; congruence.
  - unfold bind, when, emit, ret.
    destruct Hok as [records Hload].
    destruct progress_container; intros [= _ <-]; exists records;
      rewrite <- Hload; apply load_download_history_frame; cbn; congruence.
Qed.


(** ** Batch orchestrators *)

Lemma run_hooks_calls (events : list (gmap string pyval)) (w w1 : world L)
    (r : result unit) :
  run_hooks events w = (r, w1) -> calls w1 = calls w.
Proof.
  destruct (run_hooks_frame events) as (r0 & evs & Hrun).
  rewrite Hrun. intros [= _ <-]. reflexivity.
Qed.

Lemma call_download_calls (opts : ydl_opts) (url : string) (w w1 : world L)
    (r : result unit) :
  call_download opts url w = (r, w1) ->
  calls w1 = (calls w ++ [CallDownload opts url])%list.
Proof.
  unfold call_download.
  destruct (ydl_download _ _ _) as [[events outcome] l].
  destruct (progress_hooks opts).
  - destruct (run_hooks_frame events) as (r0 & evs & Hrun).
    unfold bind. rewrite Hrun.
    destruct r0 as [[] | e]; [destruct outcome |]; unfold raise, ret;
      intros [= _ <-]; reflexivity.
  - destruct outcome; intros [= _ <-]; reflexivity.
Qed.

Lemma save_download_history_calls (video_info : pyval) (w w1 : world L)
    (r : result unit) :
  save_download_history video_info w = (r, w1) -> calls w1 = calls w.
Proof.
  unfold save_download_history, load_download_history. unfold_m.
  destruct (history_file w) as [[| v] |]; destruct video_info;
    try destruct v; intros [= _ <-]; reflexivity.
Qed.

Lemma fetch_targets_app (a b : list lib_call) :
  fetch_targets (a ++ b) = (fetch_targets a ++ fetch_targets b)%list.
Proof. apply omap_app. Qed.

(** On a string, [download_video_advanced] never raises, and it starts
    with the one metadata fetch it makes. *)
Lemma download_video_advanced_total (url : string) (audio_only : bool)
    (quality : string) (progress_container : bool) (w : world L) :
  exists ok w',
    download_video_advanced (VStr url) audio_only quality
      progress_container w = (Ok ok, w') /\
    fetch_targets (calls w') = (fetch_targets (calls w) ++ [url])%list.
Proof.
  unfold download_video_advanced. cbn [url_arg].
  unfold bind at 1. unfold lift at 1. unfold bind at 1.
  unfold try_except at 1. unfold bind at 1.
  unfold get_video_info, call_extract_info.
  destruct (extract_info info_opts url (lib w)) as [[video_info | e] l].
  - unfold ret at 1. unfold try_except. unfold bind at 1.
    destruct (call_download _ url _) as [[[] | e] w2] eqn:Hdl.
    + pose proof (call_download_calls _ _ _ _ _ Hdl) as Hc2. cbn in Hc2.
      unfold bind.
      destruct (save_download_history video_info w2) as [[[] | e] w3] eqn:Hsave;
        pose proof (save_download_history_calls _ _ _ _ Hsave) as Hc3.
      * eexists _, _. split; [reflexivity |]. unfold ret.
        rewrite Hc3, Hc2, !fetch_targets_app. cbn. rewrite app_nil_r. reflexivity.
      * unfold when, emit, ret.
        destruct progress_container; (eexists _, _; split; [reflexivity |]); cbn;
          rewrite Hc3, Hc2, !fetch_targets_app; cbn; rewrite app_nil_r; reflexivity.
    + pose proof (call_download_calls _ _ _ _ _ Hdl) as Hc2. cbn in Hc2.
      unfold bind, when, emit, ret.
      destruct progress_container; (eexists _, _; split; [reflexivity |]); cbn;
        rewrite Hc2, !fetch_targets_app; cbn; rewrite app_nil_r; reflexivity.
  - unfold bind, when, emit, ret.
    destruct progress_container; (eexists _, _; split; [reflexivity |]); cbn;
      rewrite fetch_targets_app; reflexivity.
Qed.

Lemma failures_le (oks : list bool) : (failures oks <= length oks)%nat.
Proof. induction oks as [| [] oks IH]; cbn; lia. Qed.

Lemma batch_loop_run (audio_only : bool) (quality : string) (n : nat)
    (urls : list string) :
  forall i successful failed (w : world L),
  exists oks w1,
    batch_attempts audio_only quality n i urls w oks w1 /\
    length oks = length urls /\
    batch_loop n i urls audio_only quality successful failed w =
      (Ok ((successful + (length oks - failures oks))%nat,
           (failed + failures oks)%nat), w1) /\
    fetch_targets (calls w1) = (fetch_targets (calls w) ++ urls)%list.
Proof.
  induction urls as [| url urls IH]; intros i successful failed w.
  - exists [], w. split; [constructor |]. split; [reflexivity |].
    cbn. unfold ret. rewrite !Nat.add_0_r, app_nil_r. auto.
  - destruct (download_video_advanced_total url audio_only quality true
                (add_ui [UiWrite (processing_header i n)] w))
      as (ok & w1 & Hdl & Hcalls).
    cbn [batch_loop]. unfold bind at 1. unfold emit at 1.
    unfold bind at 1. rewrite Hdl.
    destruct ok.
    + destruct (IH (S i) (S successful) failed w1) as (oks & w2 & Hrun & Hlen & Hloop & Hc).
      exists (true :: oks), w2.
      split; [econstructor; eassumption |].
      split; [cbn; congruence |].
      rewrite Hloop. split.
      * cbn [failures length]. pose proof (failures_le oks).
        do 2 f_equal. f_equal; lia.
      * rewrite Hc, Hcalls. cbn. rewrite <- app_assoc. reflexivity.
    + destruct (IH (S i) successful (S failed) w1) as (oks & w2 & Hrun & Hlen & Hloop & Hc).
      exists (false :: oks), w2.
      split; [econstructor; eassumption |].
      split; [cbn; congruence |].
      rewrite Hloop. split.
      * cbn [failures length]. pose proof (failures_le oks).
        do 2 f_equal. f_equal; lia.
      * rewrite Hc, Hcalls. cbn. rewrite <- app_assoc. reflexivity.
Qed.

Lemma selected_url_string (video_data : gmap string pyval) :
  is_selectable video_data = true ->
  exists u, selected_url video_data = VStr u.
Proof.
  unfold is_selectable, selected_url, dict_get.
  destruct (video_data !! "url") as [[] |]; cbn; try discriminate; eauto.
  destruct (negb (negb (String.eqb s ""))); eauto.
Qed.

Lemma selected_loop_run (audio_only : bool) (quality : string) (n : nat)
    (selection : list (gmap string pyval)) :
  Forall (fun video_data => is_selectable video_data = true) selection ->
  forall i successful failed (w : world L),
  exists oks w1 targets,
    selected_attempts audio_only quality n i selection w oks w1 /\
    length oks = length selection /\
    selected_loop n i (VDict <$> selection) audio_only quality
      successful failed w =
      (Ok ((successful + (length oks - failures oks))%nat,
           (failed + failures oks)%nat), w1) /\
    Forall2 (fun video_data u => selected_url video_data = VStr u)
      selection targets /\
    fetch_targets (calls w1) = (fetch_targets (calls w) ++ targets)%list.
Proof.
  induction 1 as [| video_data selection Hsel _ IH]; intros i successful failed w.
  - exists [], w, []. split; [constructor |]. split; [reflexivity |].
    cbn. unfold ret. rewrite !Nat.add_0_r, app_nil_r. auto.
  - destruct (selected_url_string _ Hsel) as [u Hu].
    destruct (download_video_advanced_total u audio_only quality true
                (add_ui [UiWrite (processing_header i n);
                         UiWrite (selected_title video_data)] w))
      as (ok & w1 & Hdl & Hcalls).
    rewrite <- Hu in Hdl.
    cbn [fmap list_fmap selected_loop].
    unfold bind at 1. unfold emit at 1. unfold bind at 1. unfold emit at 1.
    rewrite add_ui_add_ui. cbn [app].
    unfold bind at 1. rewrite Hdl.
    unfold bind at 1. unfold sleep at 1.
    set (w2 := {| lib := time_sleep 1 (lib w1); calls := calls w1;
                  history_file := history_file w1; ui := ui w1 |}).
    assert (Hsleep : sleep 1 w1 = (Ok tt, w2)) by reflexivity.
    destruct ok.
    + destruct (IH (S i) (S successful) failed w2)
        as (oks & w3 & targets & Hrun & Hlen & Hloop & Htargets & Hc).
      exists (true :: oks), w3, (u :: targets).
      split; [econstructor; eassumption |].
      split; [cbn; congruence |].
      fold (@fmap list _ _ _ VDict selection). rewrite Hloop.
      split; [| split].
      * cbn [failures length]. pose proof (failures_le oks).
        do 2 f_equal. f_equal; lia.
      * constructor; assumption.
      * rewrite Hc. subst w2. cbn [calls]. rewrite Hcalls. cbn.
        rewrite <- app_assoc. reflexivity.
    + destruct (IH (S i) successful (S failed) w2)
        as (oks & w3 & targets & Hrun & Hlen & Hloop & Htargets & Hc).
      exists (false :: oks), w3, (u :: targets).
      split; [econstructor; eassumption |].
      split; [cbn; congruence |].
      fold (@fmap list _ _ _ VDict selection). rewrite Hloop.
      split; [| split].
      * cbn [failures length]. pose proof (failures_le oks).
        do 2 f_equal. f_equal; lia.
      * constructor; assumption.
      * rewrite Hc. subst w2. cbn [calls]. rewrite Hcalls. cbn.
        rewrite <- app_assoc. reflexivity.
Qed.

Lemma download_selected_videos_nonempty (selected_videos : list pyval)
    (audio_only : bool) (quality : string) (w : world L) :
  selected_videos <> [] ->
  download_selected_videos selected_videos audio_only quality w =
    bind (selected_loop (length selected_videos) 1 selected_videos
            audio_only quality 0 0)
         (fun tally => emit (UiSuccess (selected_summary (fst tally) (snd tally)))) w.
Proof. destruct selected_videos; [contradiction | reflexivity]. Qed.

(** C3, as the code has it.  [download_multiple_videos] invokes the
    download once per URL, in order, whatever the earlier ones returned,
    and ends with the tally of [n - k] successes and [k] failures, for
    every list including the empty one; [download_selected_videos] does
    the same on every non-empty selection of well-formed entries, and on
    the empty selection it invokes nothing, warns and gives no tally.
    The metadata fetches recorded among the library calls are exactly
    those of the targets, in order. *)
Theorem orchestrator_tally (audio_only : bool) (quality : string) (w : world L) :
  (forall urls,
     batch_tally_spec urls audio_only quality w /\
     fetch_targets (calls (snd (download_multiple_videos urls audio_only quality w))) =
       (fetch_targets (calls w) ++ urls)%list) /\
  (forall selection,
     Forall (fun video_data => is_selectable video_data = true) selection ->
     selection <> [] ->
     selected_tally_spec selection audio_only quality w /\
     exists targets,
       Forall2 (fun video_data u => selected_url video_data = VStr u)
         selection targets /\
       fetch_targets
         (calls (snd (download_selected_videos (VDict <$> selection)
                        audio_only quality w))) =
         (fetch_targets (calls w) ++ targets)%list) /\
  download_selected_videos [] audio_only quality w =
    (Ok tt, add_ui [UiWarning "⚠️ No videos selected for download"] w).
Proof.
  split; [| split].
  - intros urls.
    destruct (batch_loop_run audio_only quality (length urls) urls 1%nat 0%nat 0%nat w)
      as (oks & w1 & Hrun & Hlen & Hloop & Hc).
    assert (Hres : download_multiple_videos urls audio_only quality w =
              (Ok tt, add_ui [UiSuccess (batch_summary (length urls - failures oks)
                                           (failures oks))] w1)).
    { unfold download_multiple_videos, bind. rewrite Hloop. cbn [fst snd].
      rewrite Hlen. reflexivity. }
    split.
    + exists oks, w1. auto.
    + rewrite Hres. cbn. exact Hc.
  - intros selection Hsel Hne.
    destruct (selected_loop_run audio_only quality (length selection)
                selection Hsel 1%nat 0%nat 0%nat w)
      as (oks & w1 & targets & Hrun & Hlen & Hloop & Htargets & Hc).
    assert (Hres : download_selected_videos (VDict <$> selection)
                     audio_only quality w =
              (Ok tt, add_ui [UiSuccess (selected_summary
                                 (length selection - failures oks)
                                 (failures oks))] w1)).
    { rewrite download_selected_videos_nonempty
        by (destruct selection; [contradiction | discriminate]).
      rewrite length_fmap. unfold bind. rewrite Hloop. cbn [fst snd].
      rewrite Hlen. reflexivity. }
    split.
    + exists oks, w1. auto.
    + exists targets. split; [assumption |]. rewrite Hres. cbn. exact Hc.
  - reflexivity.
Qed.

(** ** Search *)

Lemma resolve_entry_cases (entry entry' : pyval) :
  resolve_entry entry = Ok entry' ->
  entry' = entry \/
  exists fields id,
    entry = VDict fields /\ fields !! "id" = Some id /\ truthy id = true /\
    lacks_direct_url fields = true /\
    entry' = VDict (<["url" := VStr (watch_url id)]> fields).
Proof.
  unfold resolve_entry.
  destruct (negb (truthy entry)); [intros [= <-]; auto |].
  destruct entry as [| | | | | fields]; try discriminate.
  unfold dict_get, lacks_direct_url.
  destruct (fields !! "id") as [id |] eqn:Hid; cbn beta iota;
    [| cbn; intros [= <-]; auto].
  destruct (truthy id) eqn:Hidt; [| intros [= <-]; auto].
  destruct (fields !! "url") as [url |] eqn:Hurl; cbn beta iota.
  - destruct (negb (truthy url)) eqn:Hu.
    + intros [= <-]. right. exists fields, id. rewrite Hurl, Hu. auto.
    + destruct url; try discriminate.
      destruct (negb (startswith s "http")) eqn:Hs; intros [= <-]; [| auto].
      right. exists fields, id. rewrite Hurl, Hs, orb_true_r. auto.
  - cbn. intros [= <-]. right. exists fields, id. rewrite Hurl. auto.
Qed.

Lemma resolve_entry_rewrites (fields : gmap string pyval) (id : pyval) :
  fields !! "id" = Some id -> truthy id = true ->
  lacks_direct_url fields = true ->
  resolve_entry (VDict fields) = Ok (VDict (<["url" := VStr (watch_url id)]> fields)).
Proof.
  intros Hid Hidt Hlack. unfold resolve_entry.
  assert (Hne : truthy (VDict fields) = true).
  { cbn. destruct (Nat.eqb_spec (size fields) 0) as [Hs | ]; [| reflexivity].
    apply map_size_empty_iff in Hs. subst. rewrite lookup_empty in Hid. discriminate. }
  rewrite Hne. cbn [negb]. unfold dict_get, lacks_direct_url in *.
  rewrite Hid. cbn beta iota. rewrite Hidt.
  destruct (fields !! "url") as [url |]; cbn beta iota; [| reflexivity].
  destruct (negb (truthy url)); [reflexivity |]. cbn [orb] in Hlack.
  destruct url; try discriminate. rewrite Hlack. reflexivity.
Qed.

Lemma resolve_entry_http (fields : gmap string pyval) (u : string) :
  fields !! "url" = Some (VStr u) -> startswith u "http" = true ->
  resolve_entry (VDict fields) = Ok (VDict fields).
Proof.
  intros Hurl Hhttp. unfold resolve_entry.
  destruct (negb (truthy (VDict fields))); [reflexivity |].
  destruct (truthy (dict_get fields "id" VNone)); [| reflexivity].
  unfold dict_get. rewrite Hurl.
  destruct u as [| c u']; [discriminate Hhttp |].
  cbn [truthy String.eqb negb]. rewrite Hhttp. reflexivity.
Qed.

Lemma resolve_entry_total (entry : pyval) :
  is_entry entry = true -> exists entry', resolve_entry entry = Ok entry'.
Proof.
  unfold is_entry, is_selectable, resolve_entry.
  destruct entry as [| | | | | fields]; try discriminate; [cbn; eauto |].
  intros Hurl. destruct (negb (truthy (VDict fields))); [eauto |].
  destruct (truthy (dict_get fields "id" VNone)); [| eauto].
  assert (Hu : dict_get fields "url" VNone = VNone \/
               exists s, dict_get fields "url" VNone = VStr s).
  { unfold dict_get. destruct (fields !! "url") as [[] |]; try discriminate; eauto. }
  destruct Hu as [-> | [s ->]]; cbn; [eauto |].
  destruct (negb (negb (String.eqb s ""))); [eauto |].
  destruct (negb (startswith s "http")); eauto.
Qed.

Lemma resolve_entries_pointwise (entries found : list pyval) :
  resolve_entries entries = Ok found ->
  Forall2 (fun entry entry' => resolve_entry entry = Ok entry') entries found.
Proof.
  revert found. induction entries as [| entry rest IH]; intros found; cbn.
  - intros [= <-]. constructor.
  - destruct (resolve_entry entry) as [entry' |] eqn:He; [| discriminate].
    destruct (resolve_entries rest) as [rest' |]; [| discriminate].
    intros [= <-]. constructor; auto.
Qed.

Lemma resolve_entries_total (entries : list pyval) :
  Forall (fun entry => is_entry entry = true) entries ->
  exists found, resolve_entries entries = Ok found.
Proof.
  induction 1 as [| entry rest He _ (found & IH)]; cbn; [eauto |].
  destruct (resolve_entry_total _ He) as [entry' ->]. rewrite IH. eauto.
Qed.

(** What the search returns when the library answers with a dictionary
    whose entries are a list of well-formed entries. *)
Lemma search_youtube_advanced_entries (query : string) (max_results : pyval)
    (search_type : string) (w : world L) (response : gmap string pyval)
    (entries : list pyval) (l1 : L) :
  extract_info search_opts (search_target query max_results search_type) (lib w) =
    (Ok (VDict response), l1) ->
  response !! "entries" = Some (VList entries) ->
  Forall (fun entry => is_entry entry = true) entries ->
  exists found w',
    search_youtube_advanced query max_results search_type w = (Ok (VList found), w') /\
    resolve_entries entries = Ok found.
Proof.
  intros Hlib Hentries Hwf.
  destruct (resolve_entries_total _ Hwf) as [found Hfound].
  exists found. eexists. split; [| exact Hfound].
  unfold search_youtube_advanced, call_extract_info. unfold_m.
  rewrite Hlib. unfold dict_get. rewrite Hentries. cbn [py_iter].
  rewrite Hfound. reflexivity.
Qed.

(** C6.  When the library answers a search with well-formed entries, the
    search returns them in the same number and order, and every entry
    that has an id and lacks a direct URL comes back with its url set to
    "https://www.youtube.com/watch?v=" followed by that id. *)
Theorem missing_url_resolved (query : string) (max_results : pyval)
    (search_type : string) (w : world L) (response : gmap string pyval)
    (entries : list pyval) (l1 : L) :
  extract_info search_opts (search_target query max_results search_type) (lib w) =
    (Ok (VDict response), l1) ->
  response !! "entries" = Some (VList entries) ->
  Forall (fun entry => is_entry entry = true) entries ->
  exists found w',
    search_youtube_advanced query max_results search_type w = (Ok (VList found), w') /\
    length found = length entries /\
    forall i fields id,
      entries !! i = Some (VDict fields) ->
      fields !! "id" = Some id -> truthy id = true ->
      lacks_direct_url fields = true ->
      exists fields',
        found !! i = Some (VDict fields') /\
        fields' !! "url" =
          Some (VStr ("https://www.youtube.com/watch?v=" ++ py_str id)).
Proof.
  intros Hlib Hentries Hwf.
  destruct (search_youtube_advanced_entries _ _ _ _ _ _ _ Hlib Hentries Hwf)
    as (found & w' & Hsearch & Hfound).
  apply resolve_entries_pointwise in Hfound.
  exists found, w'. split; [exact Hsearch |].
  split; [symmetry; eapply Forall2_length; eassumption |].
  intros i fields id Hi Hid Hidt Hlack.
  destruct (Forall2_lookup_l _ _ _ _ _ Hfound Hi) as (entry' & Hi' & Hres).
  rewrite (resolve_entry_rewrites fields id Hid Hidt Hlack) in Hres.
  injection Hres as <-.
  eexists. split; [exact Hi' |]. apply lookup_insert_eq.
Qed.

(** C7.  In playlist mode the search hands the query itself to the
    library and neither its result nor its effects depend on
    [max_results]. *)
Theorem playlist_ignores_max_results (query : string) (m1 m2 : pyval)
    (w : world L) :
  search_youtube_advanced query m1 "playlist" w =
    search_youtube_advanced query m2 "playlist" w /\
  exists r ev,
    search_youtube_advanced query m1 "playlist" w =
      (r, add_ui ev {| lib := snd (extract_info search_opts query (lib w));
                       calls := calls w ++ [CallExtractInfo search_opts query];
                       history_file := history_file w; ui := ui w |}).
Proof.
  split; [reflexivity |].
  unfold search_youtube_advanced, call_extract_info. unfold_m.
  change (search_target query m1 "playlist") with query.
  destruct (extract_info search_opts query (lib w)) as [[result | e] l]; cbn [snd].
  - destruct result; try (eexists _, [_]; reflexivity).
    destruct (py_iter _) as [items | e]; [| eexists _, [_]; reflexivity].
    destruct (resolve_entries items); [| eexists _, [_]; reflexivity].
    eexists _, []. rewrite add_ui_nil. reflexivity.
  - eexists _, [_]. reflexivity.
Qed.

(** C10.  The resolution pass keeps the number and order of the entries;
    it returns an entry as it is when the entry is falsy, when it has no
    (truthy) id, and when its url is a string starting with "http"; an
    entry it does change is a dictionary with an id that lacks a direct
    URL, and the change is the url field alone, every other field
    keeping its value.  On well-formed entries the pass completes. *)
Theorem resolution_frame (entries : list pyval) :
  (forall found,
     resolve_entries entries = Ok found ->
     length found = length entries /\
     forall i entry,
       entries !! i = Some entry ->
       exists entry',
         found !! i = Some entry' /\
         (truthy entry = false -> entry' = entry) /\
         (forall fields, entry = VDict fields ->
            truthy (dict_get fields "id" VNone) = false -> entry' = entry) /\
         (forall fields u, entry = VDict fields ->
            fields !! "url" = Some (VStr u) -> startswith u "http" = true ->
            entry' = entry) /\
         (entry' = entry \/
          exists fields id,
            entry = VDict fields /\ fields !! "id" = Some id /\
            truthy id = true /\ lacks_direct_url fields = true /\
            entry' = VDict (<["url" := VStr (watch_url id)]> fields)) /\
         (forall fields fields' key,
            entry = VDict fields -> entry' = VDict fields' -> key <> "url" ->
            fields' !! key = fields !! key)) /\
  (Forall (fun entry => is_entry entry = true) entries ->
   exists found, resolve_entries entries = Ok found).
Proof.
  split; [| apply resolve_entries_total].
  intros found Hfound. apply resolve_entries_pointwise in Hfound.
  split; [symmetry; eapply Forall2_length; eassumption |].
  intros i entry Hi.
  destruct (Forall2_lookup_l _ _ _ _ _ Hfound Hi) as (entry' & Hi' & Hres).
  exists entry'. split; [exact Hi' |].
  pose proof (resolve_entry_cases _ _ Hres) as Hcases.
  split; [| split; [| split; [| split]]].
  - intros Hfalsy. unfold resolve_entry in Hres. rewrite Hfalsy in Hres.
    cbn in Hres. congruence.
  - intros fields -> Hid.
    destruct Hcases as [-> | (fields0 & id & [= <-] & Hid0 & Hidt & _)]; [reflexivity |].
    unfold dict_get in Hid. rewrite Hid0 in Hid. cbn in Hid. congruence.
  - intros fields u -> Hurl Hhttp.
    rewrite (resolve_entry_http fields u Hurl Hhttp) in Hres. congruence.
  - exact Hcases.
  - intros fields fields' key -> -> Hkey.
    destruct Hcases as [[= ->] | (fields0 & id & [= <-] & _ & _ & _ & [= ->])];
      [reflexivity |].
    apply lookup_insert_ne. congruence.
Qed.

(** ** The history across downloads *)

Lemma save_download_history_cases (video_info : pyval) (records : list pyval)
    (w w1 : world L) (r : result unit) :
  fst (load_download_history w) = Ok (VList records) ->
  save_download_history video_info w = (r, w1) ->
  (r = Ok tt /\
   exists info,
     video_info = VDict info /\
     fst (load_download_history w1) =
       Ok (VList (records ++
             [VDict (download_record info (now_isoformat (lib w)))]))) \/
  ((exists e, r = Raise e) /\
   fst (load_download_history w1) = Ok (VList records)).
Proof.
  intros Hload.
  destruct video_info as [| | | | | info];
    try (unfold save_download_history, bind, raise;
         destruct (load_download_history w) as [[h | e] w0] eqn:Hl;
         cbn in Hload; [| discriminate];
         assert (w0 = w) by
           (unfold load_download_history in Hl;
            destruct (history_file w) as [[] |]; congruence);
         subst w0; intros [= <- <-]; right; split; [eauto | rewrite Hl; exact Hload]).
  rewrite (save_download_history_appends info records w Hload).
  intros [= <- <-]. left. split; [reflexivity |]. exists info. auto.
Qed.

Lemma download_video_advanced_history (url : string) (audio_only : bool)
    (quality : string) (progress_container : bool) (w : world L)
    (records : list pyval) :
  fst (load_download_history w) = Ok (VList records) ->
  exists ok w',
    download_video_advanced (VStr url) audio_only quality
      progress_container w = (Ok ok, w') /\
    ((ok = true /\
      exists info l,
        fst (load_download_history w') =
          Ok (VList (records ++ [VDict (download_record info (now_isoformat l))]))) \/
     (ok = false /\ fst (load_download_history w') = Ok (VList records))).
Proof.
  intros Hload. unfold download_video_advanced. cbn [url_arg].
  unfold bind at 1. unfold lift at 1. unfold bind at 1.
  unfold try_except at 1. unfold bind at 1.
  destruct (get_video_info url w) as [[video_info | e] w1] eqn:Hfetch;
    pose proof (get_video_info_history _ _ _ _ Hfetch) as Hh1.
  - unfold ret at 1. unfold try_except. unfold bind at 1.
    destruct (call_download _ url w1) as [[[] | e] w2] eqn:Hdl;
      pose proof (call_download_history _ _ _ _ _ Hdl) as Hh2.
    + assert (Hload2 : fst (load_download_history w2) = Ok (VList records)).
      { rewrite <- Hload. apply load_download_history_frame. congruence. }
      unfold bind at 1.
      destruct (save_download_history video_info w2) as [r w3] eqn:Hsave.
      destruct (save_download_history_cases _ _ _ _ _ Hload2 Hsave)
        as [(-> & info & _ & Hafter) | ([e ->] & Hafter)].
      * unfold ret. eexists _, _. split; [reflexivity |]. left. eauto.
      * unfold bind, when, emit, ret.
        destruct progress_container; (eexists _, _; split; [reflexivity |]);
          right; (split; [reflexivity |]); rewrite <- Hafter;
          apply load_download_history_frame; reflexivity.
    + unfold bind, when, emit, ret.
      destruct progress_container; (eexists _, _; split; [reflexivity |]);
        right; (split; [reflexivity |]); rewrite <- Hload;
        apply load_download_history_frame; cbn; congruence.
  - unfold bind, when, emit, ret.
    destruct progress_container; (eexists _, _; split; [reflexivity |]);
      right; (split; [reflexivity |]); rewrite <- Hload;
      apply load_download_history_frame; cbn; congruence.
Qed.

(** X1.  With a readable history, [download_video_advanced] on a URL
    string never raises, and the history afterwards is the former one
    followed by exactly one well-formed record when it returns [True] and
    the former one, unchanged, when it returns [False]. *)
Theorem download_appends_iff_true (url : string) (audio_only : bool)
    (quality : string) (progress_container : bool) (w : world L)
    (records : list pyval) :
  fst (load_download_history w) = Ok (VList records) ->
  exists ok w' appended,
    download_video_advanced (VStr url) audio_only quality
      progress_container w = (Ok ok, w') /\
    fst (load_download_history w') = Ok (VList (records ++ appended)) /\
    (ok = true -> exists r, appended = [VDict r] /\ dom r = record_keys) /\
    (ok = false -> appended = []).
Proof.
  intros Hload.
  destruct (download_video_advanced_history url audio_only quality
              progress_container w records Hload)
    as (ok & w' & Hrun & [(-> & info & l & Hafter) | (-> & Hafter)]).
  - exists true, w', [VDict (download_record info (now_isoformat l))].
    split; [exact Hrun |]. split; [exact Hafter |]. split; [| discriminate].
    intros _. eexists. split; [reflexivity | apply download_record_keys].
  - exists false, w', []. split; [exact Hrun |].
    rewrite app_nil_r. split; [exact Hafter |]. split; [discriminate | reflexivity].
Qed.

Lemma load_download_history_add_ui (evs : list ui_event) (w : world L) :
  fst (load_download_history (add_ui evs w)) = fst (load_download_history w).
Proof. apply load_download_history_frame. reflexivity. Qed.

Lemma batch_attempts_history (audio_only : bool) (quality : string) (n i : nat)
    (urls : list string) (w w1 : world L) (oks : list bool) :
  batch_attempts audio_only quality n i urls w oks w1 ->
  forall records,
    fst (load_download_history w) = Ok (VList records) ->
    exists new,
      fst (load_download_history w1) = Ok (VList (records ++ new)) /\
      (length new + failures oks = length oks)%nat.
Proof.
  induction 1 as [i w | i url urls w ok w1 oks w2 Hdl _ IH]; intros records Hload.
  - exists []. rewrite app_nil_r. auto.
  - rewrite <- (load_download_history_add_ui [UiWrite (processing_header i n)]) in Hload.
    destruct (download_video_advanced_history url audio_only quality true _ _ Hload)
      as (ok' & w' & Hrun & Hcases).
    rewrite Hdl in Hrun. injection Hrun as <- <-.
    destruct Hcases as [(-> & info & l & Hafter) | (-> & Hafter)].
    + destruct (IH _ Hafter) as (new & Hnew & Hlen).
      eexists (_ :: new). rewrite <- app_assoc in Hnew. split; [exact Hnew |].
      cbn. lia.
    + destruct (IH _ Hafter) as (new & Hnew & Hlen).
      exists new. split; [exact Hnew |]. cbn. lia.
Qed.

Lemma selected_attempts_history (audio_only : bool) (quality : string) (n i : nat)
    (selection : list (gmap string pyval)) (w w1 : world L) (oks : list bool) :
  Forall (fun video_data => is_selectable video_data = true) selection ->
  selected_attempts audio_only quality n i selection w oks w1 ->
  forall records,
    fst (load_download_history w) = Ok (VList records) ->
    exists new,
      fst (load_download_history w1) = Ok (VList (records ++ new)) /\
      (length new + failures oks = length oks)%nat.
Proof.
  intros Hsel Hrun. revert Hsel.
  induction Hrun as [i w | i video_data rest w ok w1 w2 oks w3 Hdl Hsleep _ IH];
    intros Hsel records Hload.
  - exists []. rewrite app_nil_r. auto.
  - apply Forall_cons in Hsel as [Hvideo Hrest].
    destruct (selected_url_string _ Hvideo) as [u Hu]. rewrite Hu in Hdl.
    rewrite <- (load_download_history_add_ui
                  [UiWrite (processing_header i n);
                   UiWrite (selected_title video_data)]) in Hload.
    destruct (download_video_advanced_history u audio_only quality true _ _ Hload)
      as (ok' & w' & Hrun & Hcases).
    rewrite Hdl in Hrun. injection Hrun as <- <-.
    assert (Hsl : fst (load_download_history w2) = fst (load_download_history w1)).
    { unfold sleep in Hsleep. injection Hsleep as <-.
      apply load_download_history_frame. reflexivity. }
    destruct Hcases as [(-> & info & l & Hafter) | (-> & Hafter)];
      rewrite <- Hsl in Hafter;
      destruct (IH Hrest _ Hafter) as (new & Hnew & Hlen).
    + eexists (_ :: new). rewrite <- app_assoc in Hnew. split; [exact Hnew |].
      cbn. lia.
    + exists new. split; [exact Hnew |]. cbn. lia.
Qed.

(** X2.  With a readable history, a batch run leaves the former history
    followed by as many new records as the tally counts as successful, the
    successes and failures adding up to the number of targets; the same
    holds for a non-empty selection of well-formed entries. *)
Theorem tally_counts_appended_records (audio_only : bool) (quality : string)
    (w : world L) (records : list pyval) :
  fst (load_download_history w) = Ok (VList records) ->
  (forall urls,
     exists w' new k,
       download_multiple_videos urls audio_only quality w = (Ok tt, w') /\
       fst (load_download_history w') = Ok (VList (records ++ new)) /\
       (length new + k = length urls)%nat /\
       last (ui w') = Some (UiSuccess (batch_summary (length new) k))) /\
  (forall selection,
     Forall (fun video_data => is_selectable video_data = true) selection ->
     selection <> [] ->
     exists w' new k,
       download_selected_videos (VDict <$> selection) audio_only quality w =
         (Ok tt, w') /\
       fst (load_download_history w') = Ok (VList (records ++ new)) /\
       (length new + k = length selection)%nat /\
       last (ui w') = Some (UiSuccess (selected_summary (length new) k))).
Proof.
  intros Hload. split.
  - intros urls.
    destruct (batch_loop_run audio_only quality (length urls) urls 1%nat 0%nat 0%nat w)
      as (oks & w1 & Hrun & Hlen & Hloop & _).
    destruct (batch_attempts_history _ _ _ _ _ _ _ _ Hrun _ Hload) as (new & Hnew & Hcount).
    eexists _, new, (failures oks). split.
    + unfold download_multiple_videos, bind. rewrite Hloop. reflexivity.
    + rewrite load_download_history_add_ui. split; [exact Hnew |].
      split; [lia |]. cbn [add_ui ui fst snd]. rewrite last_snoc.
      do 3 f_equal. lia.
  - intros selection Hsel Hne.
    destruct (selected_loop_run audio_only quality (length selection)
                selection Hsel 1%nat 0%nat 0%nat w)
      as (oks & w1 & targets & Hrun & Hlen & Hloop & _).
    destruct (selected_attempts_history _ _ _ _ _ _ _ _ Hsel Hrun _ Hload)
      as (new & Hnew & Hcount).
    eexists _, new, (failures oks). split.
    + rewrite download_selected_videos_nonempty
        by (destruct selection; [contradiction | discriminate]).
      rewrite length_fmap. unfold bind. rewrite Hloop. reflexivity.
    + rewrite load_download_history_add_ui. split; [exact Hnew |].
      split; [lia |]. cbn [add_ui ui fst snd]. rewrite last_snoc.
      do 3 f_equal. lia.
Qed.

(** ** What reaches the display sink *)

Lemma progress_hook_events (d : gmap string pyval) :
  exists r evs,
    (forall w, progress_hook d w = (r, add_ui evs w)) /\
    Forall (fun ev => is_progress_report ev = true) evs /\
    (length evs <= 2)%nat /\
    (forall e, r = Raise e -> evs = []) /\
    (d !! "status" = None -> exists e, r = Raise e).
Proof.
  assert (Hraise : forall (e : exn) (P : Prop),
            (forall w : world L, (Raise e : result unit, w) = (Raise e, add_ui [] w)) /\
            Forall (fun ev => is_progress_report ev = true) [] /\
            (length (@nil ui_event) <= 2)%nat /\
            (forall e', Raise e = @Raise unit e' -> @nil ui_event = []) /\
            (P -> exists e', @Raise unit e = Raise e')).
  { intros e P. split; [intros w; rewrite add_ui_nil; reflexivity |].
    split; [constructor |]. split; [cbn; lia |]. split; [reflexivity | eauto]. }
  unfold progress_hook. unfold_m.
  destruct (dict_get d "filename" (VStr "Unknown"));
    try (exists (Raise TypeError), []; apply Hraise).
  destruct (d !! "status") as [status |];
    [| exists (Raise KeyError), []; apply Hraise].
  destruct (py_eq_str status "downloading").
  - destruct (stripped_field d "_percent_str" "0%") as [p | e];
      [| exists (Raise e), []; apply Hraise].
    destruct (stripped_field d "_speed_str" "0KB/s") as [sp | e];
      [| exists (Raise e), []; apply Hraise].
    destruct (stripped_field d "_eta_str" "Unknown") as [eta | e];
      [| exists (Raise e), []; apply Hraise].
    destruct (total_is_positive (event_total d)) as [[|] | e];
      [| | exists (Raise e), []; apply Hraise].
    + destruct (true_div _ _) as [q | e];
        [| exists (Raise e), []; apply Hraise].
      eexists (Ok tt), [_; _].
      split; [intros w; rewrite add_ui_add_ui; reflexivity |].
      split; [repeat constructor |]. split; [cbn; lia |].
      split; discriminate.
    + eexists (Ok tt), [_]. split; [intros w; reflexivity |].
      split; [repeat constructor |]. split; [cbn; lia |].
      split; discriminate.
  - destruct (py_eq_str status "finished").
    + eexists (Ok tt), [_]. split; [intros w; reflexivity |].
      split; [repeat constructor |]. split; [cbn; lia |].
      split; discriminate.
    + exists (Ok tt), []. split; [intros w; rewrite add_ui_nil; reflexivity |].
      split; [constructor |]. split; [cbn; lia |].
      split; discriminate.
Qed.

(** X3.  A progress hook changes nothing but the display sink; what it
    sends depends on the status dictionary alone, is at most two messages,
    each a progress value, a status line or a completion notice; a hook
    that raises has sent nothing, and a dictionary without a status makes
    it raise. *)
Theorem progress_hook_all_or_nothing (d : gmap string pyval) (w : world L) :
  exists r evs,
    progress_hook d w = (r, add_ui evs w) /\
    Forall (fun ev => is_progress_report ev = true) evs /\
    (length evs <= 2)%nat /\
    (forall e, r = Raise e -> evs = []) /\
    (d !! "status" = None -> exists e, r = Raise e).
Proof.
  destruct (progress_hook_events d) as (r & evs & Hrun & Hrest).
  exists r, evs. split; [apply Hrun | exact Hrest].
Qed.

Lemma run_hooks_events (events : list (gmap string pyval)) :
  exists r evs,
    (forall w, run_hooks events w = (r, add_ui evs w)) /\
    Forall (fun ev => is_progress_report ev = true) evs.
Proof.
  induction events as [| d rest (r & evs & IH & Hevs)]; cbn [run_hooks].
  - exists (Ok tt), []. split; [| constructor].
    intros w. unfold ret. rewrite add_ui_nil. reflexivity.
  - destruct (progress_hook_events d) as ([[] | e] & evs0 & Hd & Hevs0 & _).
    + exists r, (evs0 ++ evs)%list. split; [| apply Forall_app; auto].
      intros w. unfold bind. rewrite Hd, IH, add_ui_add_ui. reflexivity.
    + exists (Raise e), evs0. split; [| assumption].
      intros w. unfold bind. rewrite Hd. reflexivity.
Qed.

Lemma call_download_ui (opts : ydl_opts) (url : string) (w w1 : world L)
    (r : result unit) :
  call_download opts url w = (r, w1) ->
  exists evs,
    ui w1 = (ui w ++ evs)%list /\
    Forall (fun ev => is_progress_report ev = true) evs /\
    (progress_hooks opts = false -> evs = []).
Proof.
  unfold call_download.
  destruct (ydl_download _ _ _) as [[events outcome] l].
  destruct (progress_hooks opts).
  - destruct (run_hooks_events events) as (r0 & evs & Hrun & Hevs).
    unfold bind. rewrite Hrun.
    destruct r0 as [[] | e]; [destruct outcome |]; unfold raise, ret;
      intros [= _ <-]; exists evs; cbn; (split; [reflexivity |]);
      (split; [assumption | discriminate]).
  - destruct outcome; intros [= _ <-]; exists []; cbn; rewrite app_nil_r;
      (split; [reflexivity |]); (split; [constructor | reflexivity]).
Qed.

Lemma get_video_info_ui (url : string) (w w1 : world L) (r : result pyval) :
  get_video_info url w = (r, w1) -> ui w1 = ui w.
Proof.
  unfold get_video_info, call_extract_info.
  destruct (extract_info _ _ _). intros [= _ <-]. reflexivity.
Qed.

Lemma save_download_history_ui (video_info : pyval) (w w1 : world L)
    (r : result unit) :
  save_download_history video_info w = (r, w1) -> ui w1 = ui w.
Proof.
  unfold save_download_history, load_download_history. unfold_m.
  destruct (history_file w) as [[| v] |]; destruct video_info;
    try destruct v; intros [= _ <-]; reflexivity.
Qed.

(** The messages of one download: those of the hooks, then one error
    message when it fails and a container was given. *)
Lemma download_video_advanced_ui (url : string) (audio_only : bool)
    (quality : string) (progress_container : bool) (w : world L) :
  exists ok w' evs label e,
    download_video_advanced (VStr url) audio_only quality
      progress_container w = (Ok ok, w') /\
    Forall (fun ev => is_progress_report ev = true) evs /\
    (progress_container = false -> evs = []) /\
    ui w' = (ui w ++ evs ++
             (if ok || negb progress_container then [] else [UiError label e]))%list.
Proof.
  unfold download_video_advanced. cbn [url_arg].
  unfold bind at 1. unfold lift at 1. unfold bind at 1.
  unfold try_except at 1. unfold bind at 1.
  destruct (get_video_info url w) as [[video_info | e] w1] eqn:Hfetch;
    pose proof (get_video_info_ui _ _ _ _ Hfetch) as Hu1.
  - unfold ret at 1. unfold try_except. unfold bind at 1.
    destruct (call_download _ url w1) as [[[] | e] w2] eqn:Hdl;
      destruct (call_download_ui _ _ _ _ _ Hdl) as (evs & Hu2 & Hevs & Hnone);
      cbn [progress_hooks] in Hnone.
    + unfold bind at 1.
      destruct (save_download_history video_info w2) as [[[] | e] w3] eqn:Hsave;
        pose proof (save_download_history_ui _ _ _ _ Hsave) as Hu3.
      * unfold ret. exists true, w3, evs, "", KeyError.
        split; [reflexivity |]. split; [assumption |]. split; [assumption |].
        cbn [orb]. rewrite app_nil_r. congruence.
      * unfold bind, when, emit, ret.
        destruct progress_container;
          [exists false, (add_ui [UiError "❌ Download failed: " e] w3), evs,
             "❌ Download failed: ", e
          | exists false, w3, evs, "", KeyError];
          (split; [reflexivity |]); (split; [assumption |]);
          (split; [assumption |]); cbn; rewrite ?app_nil_r, ?app_assoc; congruence.
    + unfold bind, when, emit, ret.
      destruct progress_container;
        [exists false, (add_ui [UiError "❌ Download failed: " e] w2), evs,
           "❌ Download failed: ", e
        | exists false, w2, evs, "", KeyError];
        (split; [reflexivity |]); (split; [assumption |]);
        (split; [assumption |]); cbn; rewrite ?app_nil_r, ?app_assoc; congruence.
  - unfold bind, when, emit, ret.
    destruct progress_container;
      [exists false, (add_ui [UiError "❌ Error getting video info: " e] w1), [],
         "❌ Error getting video info: ", e
      | exists false, w1, [], "", KeyError];
      (split; [reflexivity |]); (split; [constructor |]);
      (split; [reflexivity |]); cbn; rewrite ?app_nil_r; congruence.
Qed.

Lemma progress_report_not_error (evs : list ui_event) :
  Forall (fun ev => is_progress_report ev = true) evs ->
  Forall (fun ev => is_error ev = false) evs.
Proof.
  intros Hevs. eapply Forall_impl; [exact Hevs |].
  intros [] H; cbn in *; congruence.
Qed.

(** X4.  Given a display container, a download that returns [False] has
    sent exactly one error message, as the last message, and one that
    returns [True] has sent none; either way it has not raised. *)
Theorem failure_reported_once (url : string) (audio_only : bool)
    (quality : string) (w : world L) :
  exists ok w' evs,
    download_video_advanced (VStr url) audio_only quality true w = (Ok ok, w') /\
    ui w' = (ui w ++ evs)%list /\
    (ok = true -> Forall (fun ev => is_error ev = false) evs) /\
    (ok = false ->
     exists before label e,
       evs = (before ++ [UiError label e])%list /\
       Forall (fun ev => is_error ev = false) before).
Proof.
  destruct (download_video_advanced_ui url audio_only quality true w)
    as (ok & w' & evs & label & e & Hrun & Hevs & _ & Hui).
  apply progress_report_not_error in Hevs.
  exists ok, w'. eexists. split; [exact Hrun |]. split; [exact Hui |].
  split; intros ->; cbn [orb negb].
  - rewrite app_nil_r. exact Hevs.
  - exists evs, label, e. auto.
Qed.

(** X5.  Without a display container a download never writes to the
    display sink, whether it succeeds or fails: the only trace of a
    failure is the value [False]. *)
Theorem silent_without_container (url : string) (audio_only : bool)
    (quality : string) (w : world L) :
  exists ok w',
    download_video_advanced (VStr url) audio_only quality false w = (Ok ok, w') /\
    ui w' = ui w.
Proof.
  destruct (download_video_advanced_ui url audio_only quality false w)
    as (ok & w' & evs & label & e & Hrun & _ & Hnone & Hui).
  exists ok, w'. split; [exact Hrun |].
  rewrite Hui, (Hnone eq_refl). cbn [negb]. rewrite orb_true_r, !app_nil_r.
  reflexivity.
Qed.

(** ** A history that does not load *)



(** ** Download options *)


(** ** Search *)

(** X8.  A search never raises and never touches the history; it makes
    exactly one library call; and either it sends nothing to the display
    sink, or it sends the one message "Search error: ..." and returns the
    empty list, which is what happens whenever the library raises. *)
Theorem search_fails_soft (query : string) (max_results : pyval)
    (search_type : string) (w : world L) :
  exists result w' evs,
    search_youtube_advanced query max_results search_type w = (Ok result, w') /\
    history_file w' = history_file w /\
    calls w' =
      (calls w ++ [CallExtractInfo search_opts
                     (search_target query max_results search_type)])%list /\
    ui w' = (ui w ++ evs)%list /\
    (evs = [] \/
     exists e, evs = [UiError "Search error: " e] /\ result = VList []) /\
    (forall e l,
       extract_info search_opts (search_target query max_results search_type)
         (lib w) = (Raise e, l) ->
       evs = [UiError "Search error: " e]).
Proof.
  unfold search_youtube_advanced, call_extract_info. unfold_m.
  destruct (extract_info search_opts _ (lib w)) as [[result | e] l].
  - assert (Hfail : forall e0 : exn,
              exists (result0 : pyval) (w' : world L) (evs : list ui_event),
                (Ok (VList []),
                 add_ui [UiError "Search error: " e0]
                   {| lib := l;
                      calls := calls w ++ [CallExtractInfo search_opts
                                  (search_target query max_results search_type)];
                      history_file := history_file w; ui := ui w |}) =
                  (Ok result0, w') /\
                history_file w' = history_file w /\
                calls w' =
                  (calls w ++ [CallExtractInfo search_opts
                     (search_target query max_results search_type)])%list /\
                ui w' = (ui w ++ evs)%list /\
                (evs = [] \/
                 exists e, evs = [UiError "Search error: " e] /\ result0 = VList []) /\
                (forall e1 l1, (Ok result, l) = (@Raise pyval e1, l1) ->
                   evs = [UiError "Search error: " e1])).
    { intros e0. eexists _, _, [_]. split; [reflexivity |].
      repeat (split; [reflexivity |]). split; [right; eauto | discriminate]. }
    destruct result; try apply Hfail.
    destruct (py_iter _) as [items | e]; [| apply Hfail].
    destruct (resolve_entries items); [| apply Hfail].
    eexists _, _, []. split; [reflexivity |].
    split; [reflexivity |]. split; [reflexivity |].
    split; [cbn; rewrite app_nil_r; reflexivity |].
    split; [left; reflexivity | discriminate].
  - eexists _, _, [_]. split; [reflexivity |].
    repeat (split; [reflexivity |]). split; [right; eauto |].
    intros e1 l1 [= <- _]. reflexivity.
Qed.

Lemma watch_url_http (id : pyval) : startswith (watch_url id) "http" = true.
Proof. reflexivity. Qed.

Lemma resolve_entry_idempotent (entry entry' : pyval) :
  resolve_entry entry = Ok entry' -> resolve_entry entry' = Ok entry'.
Proof.
  intros Hres.
  destruct (resolve_entry_cases _ _ Hres)
    as [-> | (fields & id & -> & Hid & Hidt & Hlack & ->)]; [exact Hres |].
  apply (resolve_entry_http _ (watch_url id)).
  - apply lookup_insert_eq.
  - apply watch_url_http.
Qed.

(** X9.  The URL-resolution pass is idempotent: run on its own result it
    completes and changes nothing. *)
Theorem resolution_idempotent (entries found : list pyval) :
  resolve_entries entries = Ok found -> resolve_entries found = Ok found.
Proof.
  intros Hfound. apply resolve_entries_pointwise in Hfound.
  induction Hfound as [| entry entry' rest rest' Hentry _ IH]; [reflexivity |].
  cbn [resolve_entries].
  rewrite (resolve_entry_idempotent _ _ Hentry), IH. reflexivity.
Qed.

Lemma resolved_entry_has_http_url (entry : pyval) (fields : gmap string pyval)
    (id : pyval) :
  resolve_entry entry = Ok (VDict fields) ->
  fields !! "id" = Some id -> truthy id = true ->
  exists u, fields !! "url" = Some (VStr u) /\ startswith u "http" = true.
Proof.
  intros Hres Hid Hidt.
  apply resolve_entry_idempotent in Hres.
  destruct (resolve_entry_cases _ _ Hres)
    as [_ | (fields0 & id0 & [= <-] & _ & _ & _ & [= Heq])].
  - unfold resolve_entry in Hres.
    destruct (negb (truthy (VDict fields))) eqn:Hempty.
    { cbn in Hempty. apply negb_true_iff, negb_false_iff, Nat.eqb_eq in Hempty.
      apply map_size_empty_iff in Hempty. subst.
      rewrite lookup_empty in Hid. discriminate. }
    unfold dict_get in Hres. rewrite Hid, Hidt in Hres.
    destruct (fields !! "url") as [url |] eqn:Hurl.
    + destruct (negb (truthy url)) eqn:Hfalsy.
      * injection Hres as Heq.
        assert (Hlook : (<["url" := VStr (watch_url id)]> fields) !! "url" =
                        Some url) by (rewrite Heq; exact Hurl).
        rewrite lookup_insert_eq in Hlook. injection Hlook as <-.
        discriminate Hfalsy.
      * destruct url as [| | | u | |]; try discriminate.
        exists u. split; [reflexivity |].
        destruct (negb (startswith u "http")) eqn:Hhttp;
          [| apply negb_false_iff in Hhttp; exact Hhttp].
        injection Hres as Heq.
        assert (Hlook : (<["url" := VStr (watch_url id)]> fields) !! "url" =
                        Some (VStr u)) by (rewrite Heq; exact Hurl).
        rewrite lookup_insert_eq in Hlook. injection Hlook as <-.
        apply watch_url_http.
    + cbn in Hres. injection Hres as Heq.
      assert (Hlook : (<["url" := VStr (watch_url id)]> fields) !! "url" = None)
        by (rewrite Heq; exact Hurl).
      rewrite lookup_insert_eq in Hlook. discriminate.
  - exists (watch_url id0).
    rewrite Heq at 1. rewrite lookup_insert_eq.
    split; [reflexivity | apply watch_url_http].
Qed.

(** X10.  Every entry a completed resolution pass returns with an id
    carries a url that is a string starting with "http"; such an entry is
    well-formed for [download_selected_videos], whose target for it is
    that url, not the fallback. *)
Theorem resolved_entries_are_selectable (entries found : list pyval) :
  resolve_entries entries = Ok found ->
  forall i fields id,
    found !! i = Some (VDict fields) ->
    fields !! "id" = Some id -> truthy id = true ->
    exists u,
      fields !! "url" = Some (VStr u) /\ startswith u "http" = true /\
      is_selectable fields = true /\ selected_url fields = VStr u.
Proof.
  intros Hfound i fields id Hi Hid Hidt.
  apply resolve_entries_pointwise in Hfound.
  destruct (Forall2_lookup_r _ _ _ _ _ Hfound Hi) as (entry & _ & Hres).
  destruct (resolved_entry_has_http_url _ _ _ Hres Hid Hidt) as (u & Hurl & Hhttp).
  exists u. split; [exact Hurl |]. split; [exact Hhttp |].
  unfold is_selectable, selected_url, dict_get. rewrite Hurl.
  split; [reflexivity |].
  destruct u as [| c u]; [discriminate Hhttp | reflexivity].
Qed.

(** The loop over a selection that starts with well-formed entries runs
    them as [selected_attempts] describes and goes on with what follows,
    counters and index advanced. *)
Lemma selected_loop_app (audio_only : bool) (quality : string) (n : nat)
    (selection : list (gmap string pyval)) (tail : list pyval) :
  Forall (fun video_data => is_selectable video_data = true) selection ->
  forall i successful failed (w : world L),
  exists oks w1 targets,
    selected_attempts audio_only quality n i selection w oks w1 /\
    length oks = length selection /\
    selected_loop n i ((VDict <$> selection) ++ tail) audio_only quality
      successful failed w =
      selected_loop n (i + length selection) tail audio_only quality
        (successful + (length oks - failures oks))
        (failed + failures oks) w1 /\
    Forall2 (fun video_data u => selected_url video_data = VStr u)
      selection targets /\
    fetch_targets (calls w1) = (fetch_targets (calls w) ++ targets)%list.
Proof.
  induction 1 as [| video_data selection Hsel _ IH]; intros i successful failed w.
  - exists [], w, []. split; [constructor |]. split; [reflexivity |].
    cbn [fmap list_fmap app length failures]. rewrite !Nat.add_0_r, app_nil_r. auto.
  - destruct (selected_url_string _ Hsel) as [u Hu].
    destruct (download_video_advanced_total u audio_only quality true
                (add_ui [UiWrite (processing_header i n);
                         UiWrite (selected_title video_data)] w))
      as (ok & w1 & Hdl & Hcalls).
    rewrite <- Hu in Hdl.
    cbn [fmap list_fmap app selected_loop].
    unfold bind at 1. unfold emit at 1. unfold bind at 1. unfold emit at 1.
    rewrite add_ui_add_ui. cbn [app].
    unfold bind at 1. rewrite Hdl.
    unfold bind at 1. unfold sleep at 1.
    set (w2 := {| lib := time_sleep 1 (lib w1); calls := calls w1;
                  history_file := history_file w1; ui := ui w1 |}).
    assert (Hsleep : sleep 1 w1 = (Ok tt, w2)) by reflexivity.
    destruct ok.
    + destruct (IH (S i) (S successful) failed w2)
        as (oks & w3 & targets & Hrun & Hlen & Hloop & Htargets & Hc).
      exists (true :: oks), w3, (u :: targets).
      split; [econstructor; eassumption |].
      split; [cbn; congruence |].
      fold (@fmap list _ _ _ VDict selection). rewrite Hloop.
      split; [| split].
      * cbn [failures length]. pose proof (failures_le oks).
        f_equal; lia.
      * constructor; assumption.
      * rewrite Hc. subst w2. cbn [calls]. rewrite Hcalls. cbn.
        rewrite <- app_assoc. reflexivity.
    + destruct (IH (S i) successful (S failed) w2)
        as (oks & w3 & targets & Hrun & Hlen & Hloop & Htargets & Hc).
      exists (false :: oks), w3, (u :: targets).
      split; [econstructor; eassumption |].
      split; [cbn; congruence |].
      fold (@fmap list _ _ _ VDict selection). rewrite Hloop.
      split; [| split].
      * cbn [failures length]. pose proof (failures_le oks).
        f_equal; lia.
      * constructor; assumption.
      * rewrite Hc. subst w2. cbn [calls]. rewrite Hcalls. cbn.
        rewrite <- app_assoc. reflexivity.
Qed.

(** X11.  A selection entry that is not a dictionary aborts
    [download_selected_videos] with an [AttributeError] once its header
    is written: the entries before it have been attempted, in order, and
    what they stored stays; nothing after it is attempted and no tally
    is given. *)
Theorem malformed_selection_entry_aborts (good : list (gmap string pyval))
    (bad : pyval) (rest : list pyval) (audio_only : bool) (quality : string)
    (w : world L) :
  Forall (fun video_data => is_selectable video_data = true) good ->
  (forall video_data, bad <> VDict video_data) ->
  let n := length ((VDict <$> good) ++ bad :: rest) in
  exists oks w1 targets,
    selected_attempts audio_only quality n 1 good w oks w1 /\
    length oks = length good /\
    download_selected_videos ((VDict <$> good) ++ bad :: rest)
      audio_only quality w =
      (Raise AttributeError,
       add_ui [UiWrite (processing_header (S (length good)) n)] w1) /\
    Forall2 (fun video_data u => selected_url video_data = VStr u)
      good targets /\
    fetch_targets (calls w1) = (fetch_targets (calls w) ++ targets)%list.
Proof.
  intros Hgood Hbad n.
  destruct (selected_loop_app audio_only quality n good (bad :: rest) Hgood
              1%nat 0%nat 0%nat w)
    as (oks & w1 & targets & Hrun & Hlen & Hloop & Htargets & Hc).
  exists oks, w1, targets.
  split; [exact Hrun |]. split; [exact Hlen |].
  split; [| split; [exact Htargets | exact Hc]].
  rewrite download_selected_videos_nonempty
    by (intros Hnil; apply app_eq_nil in Hnil; destruct Hnil; discriminate).
  fold n. unfold bind at 1. rewrite Hloop.
  cbn [selected_loop Nat.add]. unfold bind at 1. unfold emit at 1.
  destruct bad as [| | | | |]; try reflexivity.
  exfalso. eapply Hbad. reflexivity.
Qed.

(** ** The page script *)


Lemma load_download_history_state (w : world L) :
  load_download_history w = (fst (load_download_history w), w).
Proof.
  unfold load_download_history. destruct (history_file w) as [[] |]; reflexivity.
Qed.

Lemma py_sum_app (acc : Z) (values : list pyval) (v : pyval) :
  py_sum acc (values ++ [v]) =
    match py_sum acc values with
    | Ok total =>
        match as_int v with
        | Some n => Ok (total + n)
        | None => Raise TypeError
        end
    | Raise e => Raise e
    end.
Proof.
  revert acc. induction values as [| x values IH]; intros acc; cbn [app py_sum].
  - destruct (as_int v); reflexivity.
  - destruct (as_int x); [apply IH | reflexivity].
Qed.


Lemma record_durations_app (records : list pyval) (record : gmap string pyval)
    (durations : list pyval) :
  record_durations records = Ok durations ->
  record_durations (records ++ [VDict record]) =
    Ok (durations ++ [dict_get record "duration" (VInt 0)])%list.
Proof.
  revert durations.
  induction records as [| h records IH]; intros durations; cbn [app record_durations].
  - intros [= <-]. reflexivity.
  - destruct h as [| | | | | r]; try discriminate.
    destruct (record_durations records) as [ds |]; [| discriminate].
    intros [= <-]. rewrite (IH ds eq_refl). reflexivity.
Qed.

Lemma download_record_duration (info : gmap string pyval) (now : string) :
  dict_get (download_record info now) "duration" (VInt 0) =
    dict_get info "duration" (VInt 0).
Proof.
  unfold download_record. unfold dict_get at 1.
  rewrite lookup_insert_ne by discriminate.
  rewrite lookup_insert_ne by discriminate.
  rewrite lookup_insert_eq. reflexivity.
Qed.

(** A download that returns [True] has stored the record of the metadata
    its fetch returned. *)
Lemma download_video_advanced_record (url : string) (audio_only : bool)
    (quality : string) (progress_container : bool) (w w' : world L)
    (records : list pyval) :
  fst (load_download_history w) = Ok (VList records) ->
  download_video_advanced (VStr url) audio_only quality progress_container w =
    (Ok true, w') ->
  exists info l now,
    extract_info info_opts url (lib w) = (Ok (VDict info), l) /\
    fst (load_download_history w') =
      Ok (VList (records ++ [VDict (download_record info now)])).
Proof.
  intros Hload. unfold download_video_advanced. cbn [url_arg].
  unfold bind at 1. unfold lift at 1. unfold bind at 1.
  unfold try_except at 1. unfold bind at 1.
  destruct (get_video_info url w) as [[video_info | e] w1] eqn:Hfetch;
    pose proof (get_video_info_history _ _ _ _ Hfetch) as Hh1.
  - unfold ret at 1. unfold try_except. unfold bind at 1.
    destruct (call_download _ url w1) as [[[] | e] w2] eqn:Hdl;
      pose proof (call_download_history _ _ _ _ _ Hdl) as Hh2.
    + assert (Hload2 : fst (load_download_history w2) = Ok (VList records)).
      { rewrite <- Hload. apply load_download_history_frame. congruence. }
      unfold bind at 1.
      destruct (save_download_history video_info w2) as [r w3] eqn:Hsave.
      destruct (save_download_history_cases _ _ _ _ _ Hload2 Hsave)
        as [(-> & info & -> & Hafter) | ([e ->] & Hafter)].
      * unfold ret. intros [= <-].
        unfold get_video_info, call_extract_info in Hfetch.
        destruct (extract_info info_opts url (lib w)) as [r l] eqn:Hlib.
        injection Hfetch as -> _. eauto.
      * unfold bind, when, emit, ret. destruct progress_container; discriminate.
    + unfold bind, when, emit, ret. destruct progress_container; discriminate.
  - unfold bind, when, emit, ret. destruct progress_container; discriminate.
Qed.

Lemma sidebar_statistics_result (w : world L) (history : pyval) :
  fst (load_download_history w) = Ok history ->
  fst (sidebar_statistics w) =
    match history_statistics history with
    | Ok statistics => Ok statistics
    | Raise e => Raise e
    end.
Proof.
  intros Hload. unfold sidebar_statistics. unfold bind at 1.
  rewrite load_download_history_state, Hload.
  unfold bind, lift, emit, ret.
  destruct (history_statistics history) as [[statistics |] | e]; reflexivity.
Qed.

Lemma format_duration_int (n : Z) : exists text, format_duration (VInt n) = Ok text.
Proof.
  unfold format_duration. cbn [truthy as_int].
  destruct (negb (negb (n =? 0))); [eauto |].
  destruct (0 <? n / 3600); eauto.
Qed.

(** The statistics of a history that ends with a new record, from those
    of the history before. *)
Lemma history_statistics_app (records durations : list pyval)
    (record : gmap string pyval) (total : Z) :
  record_durations records = Ok durations ->
  py_sum 0 durations = Ok total ->
  history_statistics (VList (records ++ [VDict record])) =
    match as_int (dict_get record "duration" (VInt 0)) with
    | Some seconds =>
        match format_duration (VInt (total + seconds)) with
        | Ok text => Ok (Some (Z.of_nat (length records) + 1, text))
        | Raise e => Raise e
        end
    | None => Raise TypeError
    end.
Proof.
  intros Hdurations Htotal. unfold history_statistics.
  assert (Htruthy : truthy (VList (records ++ [VDict record])) = true)
    by (destruct records; reflexivity).
  rewrite Htruthy. cbn [negb].
  rewrite (record_durations_app _ _ _ Hdurations), py_sum_app, Htotal.
  destruct (as_int _); [| reflexivity].
  rewrite length_app. cbn [length].
  replace (Z.of_nat (length records + 1)) with (Z.of_nat (length records) + 1) by lia.
  reflexivity.
Qed.

(** X16.  The sidebar follows the downloads: after a download that
    returned [True] on a history whose durations add up to [total], it
    counts one download more and shows the duration of [total] plus the
    duration in the fetched metadata; when that duration is not a number
    ([None], as for a live stream, or a string) the download still
    succeeds and the statistics raise [TypeError] from then on. *)
Theorem statistics_follow_downloads (url : string) (audio_only : bool)
    (quality : string) (progress_container : bool) (w w' : world L)
    (records durations : list pyval) (total : Z) :
  fst (load_download_history w) = Ok (VList records) ->
  record_durations records = Ok durations ->
  py_sum 0 durations = Ok total ->
  download_video_advanced (VStr url) audio_only quality progress_container w =
    (Ok true, w') ->
  exists info l,
    extract_info info_opts url (lib w) = (Ok (VDict info), l) /\
    match as_int (dict_get info "duration" (VInt 0)) with
    | Some seconds =>
        exists text,
          format_duration (VInt (total + seconds)) = Ok text /\
          fst (sidebar_statistics w') =
            Ok (Some (Z.of_nat (length records) + 1, text))
    | None => fst (sidebar_statistics w') = Raise TypeError
    end.
Proof.
  intros Hload Hdurations Htotal Hdl.
  destruct (download_video_advanced_record _ _ _ _ _ _ _ Hload Hdl)
    as (info & l & now & Hlib & Hafter).
  exists info, l. split; [exact Hlib |].
  rewrite (sidebar_statistics_result _ _ Hafter).
  rewrite (history_statistics_app _ _ _ _ Hdurations Htotal).
  rewrite download_record_duration.
  destruct (as_int (dict_get info "duration" (VInt 0))) as [seconds |];
    [| reflexivity].
  destruct (format_duration_int (total + seconds)) as [text Htext].
  exists text. rewrite Htext. auto.
Qed.


Lemma recent_records_length (history : list pyval) :
  length (recent_records history) = Nat.min (length history) 20.
Proof. unfold recent_records. rewrite length_rev, length_drop. lia. Qed.

Lemma recent_records_snoc (history : list pyval) (record : pyval) :
  recent_records (history ++ [record]) =
    record :: take 19 (recent_records history).
Proof.
  unfold recent_records. rewrite length_app. cbn [length].
  rewrite drop_app_le by lia. rewrite rev_app_distr. cbn [rev app].
  f_equal. rewrite firstn_rev, length_drop, drop_drop. f_equal. f_equal. lia.
Qed.

(** X18.  The history tab lists the newest record first and at most
    twenty of them; a download that returned [True] puts its record on
    top and moves the others down, the twentieth out. *)
Theorem newest_download_listed_first (url : string) (audio_only : bool)
    (quality : string) (progress_container : bool) (w w' : world L)
    (records : list pyval) :
  fst (load_download_history w) = Ok (VList records) ->
  download_video_advanced (VStr url) audio_only quality progress_container w =
    (Ok true, w') ->
  exists records' record,
    fst (load_download_history w') = Ok (VList records') /\
    dom record = record_keys /\
    recent_records records' = VDict record :: take 19 (recent_records records) /\
    (length (recent_records records') <= 20)%nat.
Proof.
  intros Hload Hdl.
  destruct (download_video_advanced_record _ _ _ _ _ _ _ Hload Hdl)
    as (info & l & now & _ & Hafter).
  eexists _, _. split; [exact Hafter |].
  split; [apply download_record_keys |].
  split; [apply recent_records_snoc |].
  rewrite recent_records_length. lia.
Qed.

Lemma search_youtube_advanced_cases (query : string) (max_results : pyval)
    (search_type : string) (w : world L) :
  exists videos w' evs,
    search_youtube_advanced query max_results search_type w = (Ok videos, w') /\
    history_file w' = history_file w /\
    calls w' =
      (calls w ++ [CallExtractInfo search_opts
                     (search_target query max_results search_type)])%list /\
    ui w' = (ui w ++ evs)%list /\
    (exists found, py_len videos = Ok found) /\
    (evs = [] \/
     exists e, evs = [UiError "Search error: " e] /\ videos = VList []) /\
    (forall e l,
       extract_info search_opts (search_target query max_results search_type)
         (lib w) = (Raise e, l) ->
       evs = [UiError "Search error: " e]).
Proof.
  unfold search_youtube_advanced, call_extract_info. unfold_m.
  destruct (extract_info search_opts _ (lib w)) as [[result | e] l].
  - assert (Hfail : forall e0 : exn,
              exists (videos : pyval) (w' : world L) (evs : list ui_event),
                (Ok (VList []),
                 add_ui [UiError "Search error: " e0]
                   {| lib := l;
                      calls := calls w ++ [CallExtractInfo search_opts
                                  (search_target query max_results search_type)];
                      history_file := history_file w; ui := ui w |}) =
                  (Ok videos, w') /\
                history_file w' = history_file w /\
                calls w' =
                  (calls w ++ [CallExtractInfo search_opts
                     (search_target query max_results search_type)])%list /\
                ui w' = (ui w ++ evs)%list /\
                (exists found, py_len videos = Ok found) /\
                (evs = [] \/
                 exists e, evs = [UiError "Search error: " e] /\ videos = VList []) /\
                (forall e1 l1, (Ok result, l) = (@Raise pyval e1, l1) ->
                   evs = [UiError "Search error: " e1])).
    { intros e0. eexists _, _, [_]. split; [reflexivity |].
      repeat (split; [reflexivity |]).
      split; [eexists; reflexivity |].
      split; [right; eauto | discriminate]. }
    destruct result; try apply Hfail.
    destruct (py_iter _) as [items | e] eqn:Hiter; [| apply Hfail].
    destruct (resolve_entries items); [| apply Hfail].
    eexists _, _, []. split; [reflexivity |].
    split; [reflexivity |]. split; [reflexivity |].
    split; [cbn; rewrite app_nil_r; reflexivity |].
    split; [| split; [left; reflexivity | discriminate]].
    destruct (dict_get m "entries" (VList [])); try discriminate Hiter;
      eexists; reflexivity.
  - eexists _, _, [_]. split; [reflexivity |].
    repeat (split; [reflexivity |]).
    split; [eexists; reflexivity |].
    split; [right; eauto |].
    intros e1 l1 [= <- _]. reflexivity.
Qed.

(** X19.  The "Search" button never raises and never touches the
    history.  On an empty term it only warns.  Otherwise it makes the one
    library call of the search and either stores truthy results, resets
    the selection and reports how many were found, or stores the empty
    list, keeps the selection and says that nothing was found; when the
    library raised, that message follows the error message. *)
Theorem search_click_session (search_query : string) (max_results : pyval)
    (search_type : string) (state : session) (w : world L) :
  exists state' w',
    search_click search_query max_results search_type state w = (Ok state', w') /\
    history_file w' = history_file w /\
    (search_query = "" ->
     state' = state /\ calls w' = calls w /\
     ui w' = (ui w ++ [UiWarning "⚠️ Please enter a search term"])%list) /\
    (search_query <> "" ->
     calls w' =
       (calls w ++ [CallExtractInfo search_opts
                      (search_target search_query max_results search_type)])%list /\
     ((truthy (search_results state') = true /\
       selected_videos state' = VList [] /\
       exists found,
         py_len (search_results state') = Ok found /\
         last (ui w') = Some (UiSuccess ("✅ Found " ++ str_int found ++ " results"))) \/
      (search_results state' = VList [] /\
       selected_videos state' = selected_videos state /\
       last (ui w') = Some (UiInfo "🤷‍♂️ No videos found."))) /\
     (forall e l,
        extract_info search_opts
          (search_target search_query max_results search_type) (lib w) =
          (Raise e, l) ->
        search_results state' = VList [] /\
        selected_videos state' = selected_videos state /\
        ui w' = (ui w ++ [UiError "Search error: " e;
                          UiInfo "🤷‍♂️ No videos found."])%list)).
Proof.
  unfold search_click. cbn [truthy].
  destruct (String.eqb_spec search_query "") as [-> | Hquery]; cbn [negb].
  - unfold bind, emit, ret. eexists _, _. split; [reflexivity |].
    split; [reflexivity |]. split; [auto | contradiction].
  - destruct (search_youtube_advanced_cases search_query max_results search_type w)
      as (videos & w1 & evs & Hsearch & Hhist & Hcalls & Hui & [found Hlen] &
          Hevs & Hraise).
    unfold bind at 1. rewrite Hsearch.
    destruct (truthy videos) eqn:Htruthy; cbn [negb].
    + unfold bind, lift, emit, ret. rewrite Hlen.
      eexists _, _. split; [reflexivity |].
      split; [exact Hhist |]. split; [contradiction |]. intros _.
      split; [exact Hcalls |]. split.
      * left. cbn [search_results selected_videos].
        split; [exact Htruthy |]. split; [reflexivity |].
        exists found. split; [exact Hlen |]. cbn. apply last_snoc.
      * intros e l Hlib. specialize (Hraise e l Hlib). subst evs.
        destruct Hevs as [[=] | (e' & _ & ->)]. discriminate Htruthy.
    + unfold bind, emit, ret.
      eexists _, _. split; [reflexivity |].
      split; [exact Hhist |]. split; [contradiction |]. intros _.
      split; [exact Hcalls |]. split.
      * right. cbn [search_results selected_videos].
        split; [reflexivity |]. split; [reflexivity |]. cbn. apply last_snoc.
      * intros e l Hlib. specialize (Hraise e l Hlib). subst evs.
        cbn [search_results selected_videos add_ui ui].
        split; [reflexivity |]. split; [reflexivity |].
        rewrite Hui, <- app_assoc. reflexivity.
Qed.

(** X20.  The "Download Now" button never raises.  When the metadata
    fetch raises it shows that one error and asks the library for nothing
    more; when the fetch returns a dictionary whose duration and view
    count can be shown, the four lines of metadata are displayed and the
    download runs, which fetches the metadata of the same URL a second
    time. *)
Theorem quick_download_fetches_twice (float_of_str : string -> option Q)
    (quick_url : string) (audio_only_quick : bool) (quality_option : string)
    (w : world L) :
  exists w',
    quick_download float_of_str quick_url audio_only_quick quality_option w =
      (Ok tt, w') /\
    (quick_url = "" ->
     w' = add_ui [UiWarning "⚠️ Please enter a valid YouTube URL"] w) /\
    (quick_url <> "" ->
     (forall e l,
        extract_info info_opts quick_url (lib w) = (Raise e, l) ->
        calls w' = (calls w ++ [CallExtractInfo info_opts quick_url])%list /\
        history_file w' = history_file w /\
        ui w' = (ui w ++ [UiError "❌ Error: " e])%list) /\
     (forall video_info l duration views,
        extract_info info_opts quick_url (lib w) = (Ok (VDict video_info), l) ->
        format_duration (dict_get video_info "duration" VNone) = Ok duration ->
        views_text float_of_str video_info = Ok views ->
        fetch_targets (calls w') =
          (fetch_targets (calls w) ++ [quick_url; quick_url])%list /\
        exists evs,
          ui w' =
            (ui w ++
             [UiInfo ("**Title:** " ++
                      py_str (dict_get video_info "title" (VStr "Unknown")));
              UiInfo ("**Duration:** " ++ duration);
              UiInfo ("**Uploader:** " ++
                      py_str (dict_get video_info "uploader" (VStr "Unknown")));
              UiInfo views] ++ evs)%list)).
Proof.
  unfold quick_download. cbn [truthy].
  destruct (String.eqb_spec quick_url "") as [-> | Hurl]; cbn [negb].
  { unfold emit. eexists. split; [reflexivity |]. split; [auto | contradiction]. }
  unfold try_except. unfold bind at 1.
  unfold get_video_info, call_extract_info.
  destruct (extract_info info_opts quick_url (lib w)) as [[video_info | e] l] eqn:Hlib.
  - set (w1 := {| lib := l;
                  calls := calls w ++ [CallExtractInfo info_opts quick_url];
                  history_file := history_file w; ui := ui w |}).
    unfold bind at 1. unfold lift at 1.
    destruct video_info as [| | | | | video_info];
      try (unfold emit; eexists; split; [reflexivity |];
           split; [contradiction |]; intros _;
           split; intros; discriminate).
    unfold bind at 1. unfold emit at 1.
    unfold bind at 1. unfold lift at 1.
    destruct (format_duration (dict_get video_info "duration" VNone))
      as [duration | e] eqn:Hduration.
    2: { unfold emit. eexists. split; [reflexivity |].
         split; [contradiction |]. intros _. split; [intros; discriminate |].
         intros video_info' l' duration' views' [= <- <-] Hd.
         rewrite Hduration in Hd. discriminate. }
    unfold bind at 1. unfold emit at 1.
    unfold bind at 1. unfold emit at 1.
    unfold bind at 1. unfold lift at 1.
    destruct (views_text float_of_str video_info) as [views | e] eqn:Hviews.
    2: { unfold emit. eexists. split; [reflexivity |].
         split; [contradiction |]. intros _. split; [intros; discriminate |].
         intros video_info' l' duration' views' [= <- <-] _ Hv.
         rewrite Hviews in Hv. discriminate. }
    unfold bind at 1. unfold emit at 1.
    rewrite !add_ui_add_ui. cbn [app].
    set (shown := [UiInfo _; UiInfo _; UiInfo _; UiInfo _]).
    destruct (download_video_advanced_ui quick_url audio_only_quick quality_option
                true (add_ui shown w1))
      as (ok & w2 & evs & label & e & Hdl & _ & _ & Hui).
    destruct (download_video_advanced_total quick_url audio_only_quick
                quality_option true (add_ui shown w1))
      as (ok' & w2' & Hdl' & Hcalls).
    rewrite Hdl in Hdl'. injection Hdl' as <- <-.
    unfold bind, ret. rewrite Hdl.
    eexists. split; [reflexivity |]. split; [contradiction |]. intros _.
    split; [intros; discriminate |].
    intros video_info' l' duration' views' [= <- <-] Hd Hv.
    rewrite Hduration in Hd. rewrite Hviews in Hv.
    injection Hd as <-. injection Hv as <-.
    split.
    + rewrite Hcalls. subst w1. cbn [add_ui calls].
      rewrite fetch_targets_app. cbn. rewrite <- app_assoc. reflexivity.
    + eexists. rewrite Hui. subst w1 shown. cbn [add_ui ui].
      rewrite <- app_assoc. reflexivity.
  - unfold emit. eexists. split; [reflexivity |].
    split; [contradiction |]. intros _. split; [| intros; discriminate].
    intros e' l' [= <- <-]. cbn. auto.
Qed.

(** X21.  [download_video_advanced] raises on exactly the targets that
    are not strings, and then a [TypeError] or an [AttributeError] from
    its first line, before anything is fetched, displayed or stored. *)
Theorem download_raises_only_on_non_string (url : pyval) (audio_only : bool)
    (quality : string) (progress_container : bool) (w : world L) :
  ((exists e w',
      download_video_advanced url audio_only quality progress_container w =
        (Raise e, w')) <->
   (forall s, url <> VStr s)) /\
  (forall e w',
     download_video_advanced url audio_only quality progress_container w =
       (Raise e, w') ->
     w' = w /\ (e = TypeError \/ e = AttributeError)).
Proof.
  destruct url as [| b | n | s | l | m].
  4: { destruct (download_video_advanced_total s audio_only quality
                   progress_container w) as (ok & w1 & Hdl & _).
       rewrite Hdl. split; [split |].
       - intros (e & w' & [=]).
       - intros Hnot. exfalso. apply (Hnot s). reflexivity.
       - intros e w' [=]. }
  all: unfold download_video_advanced, bind, lift; cbn [url_arg].
  4: destruct (existsb _ l).
  6: destruct (m !! "v=").
  all: (split; [split; [discriminate | eauto] |]);
    intros e w' [= <- <-]; auto.
Qed.

End Program.

(** ** Formatter utilities *)

Lemma hms_decomposition (n : Z) :
  3600 * (n / 3600) + 60 * ((n mod 3600) / 60) + n mod 60 = n /\
  0 <= (n mod 3600) / 60 < 60 /\ 0 <= n mod 60 < 60.
Proof.
  assert (Hs : n mod 60 = (n mod 3600) mod 60).
  { symmetry. apply Z.mod_mod_divide. exists 60. reflexivity. }
  pose proof (Z.div_mod n 3600 ltac:(lia)) as H1.
  pose proof (Z.div_mod (n mod 3600) 60 ltac:(lia)) as H2.
  pose proof (Z.mod_pos_bound n 3600 ltac:(lia)) as B1.
  pose proof (Z.mod_pos_bound (n mod 3600) 60 ltac:(lia)) as B2.
  rewrite Hs. repeat split; lia.
Qed.

(** C4.  [format_duration] answers "Unknown" on every falsy argument; on a
    non-zero integer it splits the total into hours, minutes below 60 and
    seconds below 60 and prints them, without padding, as [h:m:s] when the
    hours are positive and as [m:s] otherwise; the four sample values of
    the specification come out as stated. *)
Theorem format_duration_spec :
  (forall v, truthy v = false -> format_duration v = Ok "Unknown") /\
  (forall n, n <> 0 ->
     exists h m s,
       3600 * h + 60 * m + s = n /\ 0 <= m < 60 /\ 0 <= s < 60 /\
       format_duration (VInt n) =
         Ok (if 0 <? h
             then str_int h ++ ":" ++ str_int m ++ ":" ++ str_int s
             else str_int m ++ ":" ++ str_int s)) /\
  format_duration (VInt 0) = Ok "Unknown" /\
  format_duration VNone = Ok "Unknown" /\
  format_duration (VInt 3661) = Ok "1:1:1" /\
  format_duration (VInt 125) = Ok "2:5".
Proof.
  split; [| split]; [| | repeat split; reflexivity].
  - intros v Hv. unfold format_duration. rewrite Hv. reflexivity.
  - intros n Hn.
    exists (n / 3600), ((n mod 3600) / 60), (n mod 60).
    destruct (hms_decomposition n) as (Hsum & Hm & Hs).
    repeat split; try lia.
    unfold format_duration. cbn [truthy as_int negb].
    destruct (Z.eqb_spec n 0) as [| _]; [contradiction |].
    cbn [negb]. destruct (0 <? n / 3600); reflexivity.
Qed.

Lemma Qdiv_one (x : Q) : (x / inject_Z 1 = x)%Q.
Proof.
  destruct x as [n d]. unfold Qdiv, Qmult, Qinv, inject_Z; cbn.
  f_equal; lia.
Qed.

Lemma Qdiv_scale (x : Q) (p : positive) :
  (x / inject_Z (Zpos p) / 1024 = x / inject_Z (Zpos (p * 1024)))%Q.
Proof.
  destruct x as [n d]. unfold Qdiv, Qmult, Qinv, inject_Z; cbn.
  f_equal; lia.
Qed.

(** The loop of [format_file_size] computes the closed form. *)
Lemma size_units_human (x : Q) :
  size_units x ["B"; "KB"; "MB"; "GB"] = human_size x.
Proof.
  unfold human_size, unit_index, remaining. cbn [size_units].
  change (x / 1024)%Q with (x / inject_Z (Zpos 1024))%Q.
  rewrite ?Qdiv_scale.
  change (1024 ^ Z.of_nat 0) with 1.
  change (1024 ^ Z.of_nat 1) with (Zpos 1024).
  change (1024 ^ Z.of_nat 2) with (Zpos (1024 * 1024)).
  change (1024 ^ Z.of_nat 3) with (Zpos (1024 * 1024 * 1024)).
  change (1024 ^ Z.of_nat 4) with (Zpos (1024 * 1024 * 1024 * 1024)).
  rewrite !Qdiv_one.
  destruct (Qltb x 1024).
  { change (1024 ^ Z.of_nat 0) with 1. rewrite Qdiv_one. reflexivity. }
  repeat (destruct (Qltb _ 1024); [reflexivity |]).
  reflexivity.
Qed.

Lemma float_of_int_exact (n : Z) :
  Z.abs n < 2 ^ 53 -> float_of_int n = Some n.
Proof.
  intros Hn. unfold float_of_int.
  destruct (Z.ltb_spec (Z.abs n) (2 ^ 53)) as [_ | ?]; [| lia].
  assert (Hlt : 2 ^ 53 < 2 ^ 1024) by (apply Z.pow_lt_mono_r; lia).
  destruct (Z.leb_spec (2 ^ 1024) (Z.abs n)) as [? | _]; [lia |].
  f_equal. rewrite Z.mul_comm. apply Z.abs_sgn.
Qed.

(** [round_half_even] returns a nearest integer. *)
Lemma round_half_even_nearest (num den : Z) :
  0 < den -> Z.abs (2 * (num - round_half_even num den * den)) <= den.
Proof.
  intros Hden. unfold round_half_even.
  pose proof (Z.div_mod num den ltac:(lia)) as Hdm.
  pose proof (Z.mod_pos_bound num den Hden) as Hb.
  destruct (Z.compare_spec (2 * (num mod den)) den) as [He | Hl | Hg];
    [destruct (Z.even (num / den)) |..]; nia.
Qed.

(** An integer-valued double prints as the integer followed by ".0". *)
Lemma format_1f_integer (n : Z) :
  format_1f (inject_Z n) =
    (if n <? 0 then "-" else "") ++ str_int (Z.abs n) ++ ".0".
Proof.
  unfold format_1f, round_half_even, inject_Z. cbn [Qnum Qden].
  rewrite Z.mod_1_r, Z.div_1_r. change (2 * 0 ?= 1) with Lt. cbn beta iota.
  rewrite (Z.mul_comm 10), Z.div_mul, Z.mod_mul by lia.
  reflexivity.
Qed.

Lemma format_file_size_int (float_of_str : string -> option Q) (n f : Z) :
  n <> 0 -> float_of_int n = Some f ->
  format_file_size float_of_str (VInt n) = Ok (human_size (inject_Z f)).
Proof.
  intros Hn Hf. unfold format_file_size, py_float.
  cbn [truthy py_eq_zero as_int mbind option_bind].
  destruct (Z.eqb_spec n 0) as [| _]; [contradiction |].
  cbn [negb orb]. rewrite Hf, size_units_human. reflexivity.
Qed.

Lemma append_assoc (a b c : string) : (a ++ b) ++ c = a ++ (b ++ c).
Proof.
  induction a as [| x a IH]; [reflexivity |].
  change (String x ((a ++ b) ++ c) = String x (a ++ (b ++ c))).
  rewrite IH. reflexivity.
Qed.

(** [float(n)] only overflows on integers of more than 1023 bits. *)
Lemma float_of_int_overflow (n : Z) :
  float_of_int n = None -> 2 ^ 1023 <= Z.abs n.
Proof.
  intros Hf.
  destruct (Z.le_gt_cases (2 ^ 1023) (Z.abs n)) as [| Hlt]; [assumption | exfalso].
  unfold float_of_int in Hf.
  destruct (Z.ltb_spec (Z.abs n) (2 ^ 53)) as [Hs | Hl].
  - destruct (Z.leb_spec (2 ^ 1024) (Z.abs n)) as [Hge | _]; [| discriminate].
    assert (2 ^ 1023 < 2 ^ 1024) by (apply Z.pow_lt_mono_r; lia). lia.
  - set (a := Z.abs n) in *. set (e := Z.log2 a - 52) in *.
    assert (Ha : 0 < a) by (assert (0 < 2 ^ 53) by (apply Z.pow_pos_nonneg; lia); lia).
    assert (Hlog : 53 <= Z.log2 a) by (apply Z.log2_le_pow2; lia).
    assert (Hlog2 : Z.log2 a < 1023) by (apply Z.log2_lt_pow2; lia).
    assert (He : 1 <= e) by (unfold e; lia).
    assert (Hpe : 0 < 2 ^ e) by (apply Z.pow_pos_nonneg; lia).
    assert (Hq : a / 2 ^ e < 2 ^ 53).
    { apply Z.div_lt_upper_bound; [lia |].
      rewrite <- Z.pow_add_r by lia.
      replace (e + 53) with (Z.succ (Z.log2 a)) by (unfold e; lia).
      apply Z.log2_spec. lia. }
    assert (Hr : (if (2 ^ (e - 1) <? a mod 2 ^ e) ||
                     ((a mod 2 ^ e =? 2 ^ (e - 1)) && Z.odd (a / 2 ^ e))
                  then a / 2 ^ e + 1 else a / 2 ^ e) * 2 ^ e <= 2 ^ 53 * 2 ^ e).
    { apply Z.mul_le_mono_nonneg_r; [lia |]. destruct (_ || _); lia. }
    assert (Hle : 2 ^ 53 * 2 ^ e < 2 ^ 1024).
    { rewrite <- Z.pow_add_r by lia. apply Z.pow_lt_mono_r; unfold e; lia. }
    destruct (Z.leb_spec (2 ^ 1024)
                ((if (2 ^ (e - 1) <? a mod 2 ^ e) ||
                     ((a mod 2 ^ e =? 2 ^ (e - 1)) && Z.odd (a / 2 ^ e))
                  then a / 2 ^ e + 1 else a / 2 ^ e) * 2 ^ e)) as [Hge | _];
      [lia | discriminate].
Qed.

Lemma float_of_int_finite (n : Z) :
  Z.abs n < 2 ^ 1023 -> exists f, float_of_int n = Some f.
Proof.
  intros Hn. destruct (float_of_int n) as [f |] eqn:Hf; [eauto |].
  apply float_of_int_overflow in Hf. lia.
Qed.

(** An integer too large for a double is the one argument on which
    [format_file_size] raises: [OverflowError] is not among the exceptions
    it catches.  No byte count comes near it. *)
Lemma format_file_size_overflow (float_of_str : string -> option Q) (n : Z) :
  float_of_int n = None ->
  format_file_size float_of_str (VInt n) = Raise OverflowError.
Proof.
  intros Hf. pose proof (float_of_int_overflow n Hf) as Hbig.
  unfold format_file_size, py_float.
  cbn [truthy py_eq_zero as_int mbind option_bind].
  assert (Hn : n <> 0).
  { intros ->. assert (0 < 2 ^ 1023) by (apply Z.pow_pos_nonneg; lia).
    change (Z.abs 0) with 0 in Hbig. lia. }
  destruct (Z.eqb_spec n 0) as [| _]; [contradiction |].
  cbn [negb orb]. rewrite Hf. reflexivity.
Qed.

(** Below 1024 bytes the size is printed as it is, in bytes. *)
Lemma format_file_size_bytes (float_of_str : string -> option Q) (n : Z) :
  0 < n < 1024 ->
  format_file_size float_of_str (VInt n) = Ok (str_int n ++ ".0 B").
Proof.
  intros Hn.
  rewrite (format_file_size_int float_of_str n n) by (try apply float_of_int_exact; lia).
  unfold human_size, unit_index, remaining.
  change (1024 ^ Z.of_nat 0) with 1. rewrite Qdiv_one.
  assert (Hlt : Qltb (inject_Z n) 1024 = true).
  { unfold Qltb, Qle_bool, inject_Z. cbn [Qnum Qden].
    destruct (Z.leb_spec (1024 * 1) (n * 1)); [lia | reflexivity]. }
  rewrite Hlt. cbn [nth unit_names Z.of_nat].
  change (1024 ^ 0) with 1. rewrite Qdiv_one, format_1f_integer.
  destruct (Z.ltb_spec n 0); [lia |]. rewrite Z.abs_eq by lia.
  change ("" ++ str_int n ++ ".0") with (str_int n ++ ".0").
  rewrite append_assoc. reflexivity.
Qed.

(** C5.  [format_file_size] answers "Unknown" on falsy (in particular
    zero) and on non-numeric arguments; on a number it divides by 1024
    until the remaining value is below 1024, taking the first such unit of
    B, KB, MB, GB and TB when there is none, and prints the remaining value
    with one decimal; the four sample values of the specification come out
    as stated. *)
Theorem format_file_size_spec (float_of_str : string -> option Q) :
  (forall v, truthy v = false -> format_file_size float_of_str v = Ok "Unknown") /\
  (forall l, format_file_size float_of_str (VList l) = Ok "Unknown") /\
  (forall m, format_file_size float_of_str (VDict m) = Ok "Unknown") /\
  (forall s, float_of_str s = None ->
     format_file_size float_of_str (VStr s) = Ok "Unknown") /\
  (forall n f, n <> 0 -> float_of_int n = Some f ->
     format_file_size float_of_str (VInt n) = Ok (human_size (inject_Z f))) /\
  (forall n, n <> 0 -> Z.abs n < 2 ^ 1023 ->
     exists f, float_of_int n = Some f /\
       format_file_size float_of_str (VInt n) = Ok (human_size (inject_Z f))) /\
  (forall n, n <> 0 -> Z.abs n < 2 ^ 53 ->
     format_file_size float_of_str (VInt n) = Ok (human_size (inject_Z n))) /\
  (forall s x, s <> "" -> float_of_str s = Some x ->
     format_file_size float_of_str (VStr s) = Ok (human_size x)) /\
  format_file_size float_of_str (VInt 0) = Ok "Unknown" /\
  format_file_size float_of_str (VInt 1024) = Ok "1.0 KB" /\
  format_file_size float_of_str (VInt 1536) = Ok "1.5 KB" /\
  format_file_size float_of_str (VInt 1073741824) = Ok "1.0 GB".
Proof.
  pose proof (format_file_size_int float_of_str) as Hint.
  repeat apply conj; try reflexivity.
  - intros v Hv. unfold format_file_size. rewrite Hv. reflexivity.
  - intros [| x l]; [reflexivity |]. unfold format_file_size.
    cbn [truthy py_eq_zero negb orb py_float]. reflexivity.
  - intros m. unfold format_file_size.
    cbn [py_eq_zero py_float]. rewrite orb_false_r.
    destruct (negb (truthy (VDict m))); reflexivity.
  - intros s Hs. unfold format_file_size.
    cbn [py_eq_zero py_float]. rewrite orb_false_r, Hs.
    destruct (negb (truthy (VStr s))); reflexivity.
  - exact Hint.
  - intros n Hn Hb. destruct (float_of_int_finite n Hb) as [f Hf].
    exists f. split; [exact Hf | apply Hint; assumption].
  - intros n Hn Hb. apply Hint; [assumption |]. apply float_of_int_exact, Hb.
  - intros s x Hs Hx. unfold format_file_size.
    cbn [truthy py_eq_zero py_float]. rewrite orb_false_r, Hx.
    destruct (String.eqb_spec s "") as [| _]; [contradiction |].
    cbn [negb]. rewrite size_units_human. reflexivity.
Qed.

(** On an integer, the comparison the loop makes after [k] divisions is
    a comparison with the next power of 1024. *)
Lemma Qltb_remaining (n : Z) (k : nat) :
  Qltb (remaining (inject_Z n) k) 1024 = (n <? 1024 ^ (Z.of_nat k + 1)).
Proof.
  unfold remaining.
  assert (Hpos : 0 < 1024 ^ Z.of_nat k) by (apply Z.pow_pos_nonneg; lia).
  rewrite Z.pow_add_r, Z.pow_1_r by lia.
  destruct (1024 ^ Z.of_nat k) as [| p | p]; try lia.
  unfold Qltb, Qle_bool, Qdiv, Qmult, Qinv, inject_Z. cbn [Qnum Qden].
  destruct (Z.leb_spec (1024 * Zpos (1 * p)) (n * 1 * 1));
    destruct (Z.ltb_spec n (Zpos p * 1024)); cbn [negb]; try reflexivity; lia.
Qed.

(** The unit chosen for an integer is its binary logarithm divided by
    ten, capped at four. *)
Lemma unit_index_log2 (n : Z) :
  unit_index (inject_Z n) = Z.to_nat (Z.min 4 (Z.log2 n / 10)).
Proof.
  unfold unit_index. rewrite !Qltb_remaining.
  change (1024 ^ (Z.of_nat 0 + 1)) with (2 ^ 10).
  change (1024 ^ (Z.of_nat 1 + 1)) with (2 ^ 20).
  change (1024 ^ (Z.of_nat 2 + 1)) with (2 ^ 30).
  change (1024 ^ (Z.of_nat 3 + 1)) with (2 ^ 40).
  pose proof (Z.div_mod (Z.log2 n) 10 ltac:(lia)) as Hdm.
  pose proof (Z.mod_pos_bound (Z.log2 n) 10 ltac:(lia)) as Hmod.
  destruct (Z.le_gt_cases n 0) as [Hle | Hgt].
  { rewrite (Z.log2_nonpos n Hle) in *.
    destruct (Z.ltb_spec n (2 ^ 10)); [reflexivity |].
    assert (0 < 2 ^ 10) by (apply Z.pow_pos_nonneg; lia). lia. }
  pose proof (Z.log2_nonneg n) as Hnn.
  pose proof (Z.log2_lt_pow2 n 10 Hgt) as H10.
  pose proof (Z.log2_lt_pow2 n 20 Hgt) as H20.
  pose proof (Z.log2_lt_pow2 n 30 Hgt) as H30.
  pose proof (Z.log2_lt_pow2 n 40 Hgt) as H40.
  set (q := Z.log2 n / 10) in *.
  destruct (Z.ltb_spec n (2 ^ 10)) as [Ha | Ha].
  { replace (Z.min 4 q) with 0 by lia. reflexivity. }
  destruct (Z.ltb_spec n (2 ^ 20)) as [Hb | Hb].
  { replace (Z.min 4 q) with 1 by lia. reflexivity. }
  destruct (Z.ltb_spec n (2 ^ 30)) as [Hc | Hc].
  { replace (Z.min 4 q) with 2 by lia. reflexivity. }
  destruct (Z.ltb_spec n (2 ^ 40)) as [Hd | Hd].
  { replace (Z.min 4 q) with 3 by lia. reflexivity. }
  replace (Z.min 4 q) with 4 by lia. reflexivity.
Qed.

(** X12.  On a non-zero integer that a double holds exactly,
    [format_file_size] picks the unit by the binary logarithm: every ten
    bits move one unit up, TB being the last; a negative size is printed
    as it is, in bytes, however large. *)
Theorem format_file_size_unit_by_log2 (float_of_str : string -> option Q) (n : Z) :
  n <> 0 -> Z.abs n < 2 ^ 53 ->
  let k := Z.to_nat (Z.min 4 (Z.log2 n / 10)) in
  format_file_size float_of_str (VInt n) =
    Ok (format_1f (remaining (inject_Z n) k) ++ " " ++ nth k unit_names "TB") /\
  (n < 0 ->
   format_file_size float_of_str (VInt n) = Ok ("-" ++ str_int (- n) ++ ".0 B")).
Proof.
  intros Hn Hb k.
  rewrite (format_file_size_int float_of_str n n)
    by (try apply float_of_int_exact; assumption).
  unfold human_size. rewrite unit_index_log2. fold k.
  split; [reflexivity |].
  intros Hneg. subst k. rewrite (Z.log2_nonpos n) by lia.
  change (Z.to_nat (Z.min 4 (0 / 10))) with 0%nat.
  unfold remaining. change (1024 ^ Z.of_nat 0) with 1.
  rewrite Qdiv_one, format_1f_integer.
  destruct (Z.ltb_spec n 0); [| lia].
  rewrite Z.abs_neq by lia. cbn [nth unit_names].
  rewrite !append_assoc. reflexivity.
Qed.

(** X13.  [format_duration] raises on exactly the truthy values that are
    not numbers, and then a [TypeError]; a negative total is printed
    without an hour field, as the minutes and seconds of its remainder
    modulo 3600, like that remainder itself when it is not zero. *)
Theorem format_duration_edge_cases :
  (forall v e, format_duration v = Raise e <->
     (truthy v = true /\ as_int v = None /\ e = TypeError)) /\
  (forall n, n < 0 ->
     format_duration (VInt n) =
       Ok (str_int ((n mod 3600) / 60) ++ ":" ++ str_int (n mod 60))) /\
  (forall n, n < 0 -> n mod 3600 <> 0 ->
     format_duration (VInt n) = format_duration (VInt (n mod 3600))).
Proof.
  split; [| split].
  - intros v e. unfold format_duration.
    destruct (truthy v); cbn [negb].
    + destruct (as_int v) as [n |].
      * destruct (0 <? n / 3600);
          (split; [discriminate | intros (_ & Hnone & _); discriminate Hnone]).
      * split; [intros [= <-]; auto | intros (_ & _ & ->); reflexivity].
    + split; [discriminate | intros (Hfalse & _); discriminate Hfalse].
  - intros n Hn. unfold format_duration. cbn [truthy as_int negb].
    destruct (Z.eqb_spec n 0); [lia |]. cbn [negb].
    assert (Hh : n / 3600 < 0) by (apply Z.div_lt_upper_bound; lia).
    destruct (Z.ltb_spec 0 (n / 3600)); [lia | reflexivity].
  - intros n Hn Hr. unfold format_duration. cbn [truthy as_int negb].
    destruct (Z.eqb_spec n 0); [lia |].
    destruct (Z.eqb_spec (n mod 3600) 0); [contradiction |]. cbn [negb].
    pose proof (Z.mod_pos_bound n 3600 ltac:(lia)) as Hm.
    assert (Hh : n / 3600 < 0) by (apply Z.div_lt_upper_bound; lia).
    rewrite (Z.div_small (n mod 3600) 3600) by lia.
    rewrite Z.mod_mod by lia.
    assert (Hs : (n mod 3600) mod 60 = n mod 60).
    { apply Z.mod_mod_divide. exists 60. reflexivity. }
    rewrite Hs.
    destruct (Z.ltb_spec 0 (n / 3600)); [lia | reflexivity].
Qed.

(** ** The page script: the text area of the batch tab *)












(** ** The page script: the views line of the quick download *)


(** * Instances in the sample world *)

Lemma format_duration_spec_witness :
  format_duration (VStr "") = Ok "Unknown" /\
  exists h m s,
    3600 * h + 60 * m + s = 7325 /\ 0 <= m < 60 /\ 0 <= s < 60 /\
    format_duration (VInt 7325) =
      Ok (if 0 <? h
          then str_int h ++ ":" ++ str_int m ++ ":" ++ str_int s
          else str_int m ++ ":" ++ str_int s).
Proof.
  split.
  - apply (proj1 format_duration_spec). reflexivity.
  - apply (proj1 (proj2 format_duration_spec)). lia.
Defined.

Lemma format_file_size_spec_witness :
  format_file_size Sample.float_of_str (VStr "") = Ok "Unknown" /\
  format_file_size Sample.float_of_str (VStr "abc") = Ok "Unknown" /\
  format_file_size Sample.float_of_str (VInt 1536) = Ok (human_size (inject_Z 1536)) /\
  format_file_size Sample.float_of_str (VInt (-5)) = Ok (human_size (inject_Z (-5))) /\
  format_file_size Sample.float_of_str (VStr "2048") = Ok (human_size (inject_Z 2048)).
Proof.
  destruct (format_file_size_spec Sample.float_of_str)
    as (Hfalsy & _ & _ & Htext & Hint & _ & Hexact & Hnum & _).
  split; [| split; [| split; [| split]]].
  - apply Hfalsy. reflexivity.
  - apply Htext. reflexivity.
  - apply Hint; [lia | reflexivity].
  - apply Hexact; [lia | reflexivity].
  - apply Hnum; [discriminate | reflexivity].
Defined.

Lemma appended_record_fields_witness :
  exists r : gmap string pyval,
    history_file
      (snd (save_download_history nat Sample.now_isoformat
              (VDict Sample.video) Sample.start)) =
      Some (Json (VList [VDict r])) /\
    dom r = record_keys /\
    r !! "title" = Some (VStr "Clip") /\
    r !! "file_size" = Some (VInt 0).
Proof.
  destruct (appended_record_fields nat Sample.now_isoformat (VDict Sample.video)
              Sample.start
              (snd (save_download_history nat Sample.now_isoformat
                      (VDict Sample.video) Sample.start)) eq_refl)
    as (info & records & r & Hinfo & Hfile & Hdom & _ & _ & _ & _ & Hsize & _ &
        Htitle & _).
  injection Hinfo as <-.
  exists r. split.
  - rewrite Hfile. cbn in Hfile. injection Hfile as Hfile.
    destruct records as [| x [| y records]]; [reflexivity | |]; discriminate Hfile.
  - split; [exact Hdom |]. split; [apply Htitle | apply Hsize]; reflexivity.
Defined.

Lemma history_round_trip_witness :
  exists w',
    save_download_history nat Sample.now_isoformat (VDict Sample.video)
      Sample.start = (Ok tt, w') /\
    fst (load_download_history nat w') =
      Ok (VList [VDict (download_record Sample.video "2024-05-01T12:00:00.000000")]).
Proof.
  destruct (history_round_trip nat Sample.now_isoformat Sample.video []
              Sample.start eq_refl)
    as (w' & after & Hsave & Hload & _ & _ & ->).
  exists w'. split; [exact Hsave | exact Hload].
Defined.


Lemma orchestrator_tally_witness :
  selected_tally_spec nat Sample.extract_info Sample.ydl_download
    Sample.now_isoformat Sample.time_sleep Sample.repr_container
    [<["id" := VStr "abc"]> ∅; <["url" := VStr Sample.refused_url]> ∅]
    false "best" Sample.start.
Proof.
  apply (proj1 (proj2 (orchestrator_tally nat Sample.extract_info
                         Sample.ydl_download Sample.now_isoformat
                         Sample.time_sleep Sample.repr_container
                         false "best" Sample.start))).
  - repeat constructor.
  - discriminate.
Defined.

(** The tally the specification promises for every list is not what an
    empty selection gets: the only thing displayed is the warning. *)
Lemma empty_selection_has_no_tally :
  ~ selected_tally_spec nat Sample.extract_info Sample.ydl_download
      Sample.now_isoformat Sample.time_sleep Sample.repr_container
      [] false "best" Sample.start.
Proof.
  intros (oks & w1 & Hrun & _ & Hres).
  inversion Hrun; subst. discriminate Hres.
Qed.

Lemma missing_url_resolved_witness :
  exists found w' fields',
    search_youtube_advanced nat Sample.extract_info Sample.repr_container
      "cats" (VInt 10) "video" Sample.start = (Ok (VList found), w') /\
    found !! 0%nat = Some (VDict fields') /\
    fields' !! "url" = Some (VStr "https://www.youtube.com/watch?v=abc").
Proof.
  destruct (missing_url_resolved nat Sample.extract_info Sample.repr_container
              "cats" (VInt 10) "video" Sample.start Sample.response
              Sample.entries 1%nat eq_refl eq_refl)
    as (found & w' & Hsearch & _ & Hurl).
  - repeat constructor.
  - destruct (Hurl 0%nat (<["id" := VStr "abc"]> (<["title" := VStr "Clip"]> ∅))
                (VStr "abc") eq_refl eq_refl eq_refl eq_refl)
      as (fields' & Hfound & Hfield).
    exists found, w', fields'. auto.
Defined.


Lemma resolution_frame_witness :
  (exists found,
     resolve_entries Sample.repr_container Sample.entries = Ok found /\
     length found = 3%nat /\ found !! 2%nat = Some VNone) /\
  (exists found, resolve_entries Sample.repr_container Sample.entries = Ok found).
Proof.
  destruct (resolution_frame Sample.repr_container Sample.entries) as [Hframe Htotal].
  split.
  - destruct (Hframe _ eq_refl) as [Hlen Hentry].
    destruct (Hentry 2%nat VNone eq_refl) as (entry' & Hfound & Hfalsy & _).
    eexists. split; [reflexivity |]. split; [exact Hlen |].
    rewrite Hfound. f_equal. apply Hfalsy. reflexivity.
  - apply Htotal. repeat constructor.
Defined.

Lemma download_appends_iff_true_witness :
  exists w' r,
    download_video_advanced nat Sample.extract_info Sample.ydl_download
      Sample.now_isoformat (VStr Sample.good_url) false "best" true Sample.start =
      (Ok true, w') /\
    fst (load_download_history nat w') = Ok (VList [VDict r]) /\
    dom r = record_keys.
Proof.
  destruct (download_appends_iff_true nat Sample.extract_info Sample.ydl_download
              Sample.now_isoformat Sample.good_url false "best" true
              Sample.start [] eq_refl)
    as (ok & w' & appended & Hdl & Hload & Htrue & _).
  assert (Hok : fst (download_video_advanced nat Sample.extract_info
                       Sample.ydl_download Sample.now_isoformat
                       (VStr Sample.good_url) false "best" true Sample.start) =
                Ok true) by reflexivity.
  rewrite Hdl in Hok. injection Hok as ->.
  destruct (Htrue eq_refl) as (r & -> & Hdom).
  exists w', r. auto.
Defined.

Lemma tally_counts_appended_records_witness :
  exists w' new k,
    download_multiple_videos nat Sample.extract_info Sample.ydl_download
      Sample.now_isoformat [Sample.good_url; Sample.refused_url] false "best"
      Sample.start = (Ok tt, w') /\
    fst (load_download_history nat w') = Ok (VList new) /\
    (length new + k = 2)%nat /\
    last (ui w') = Some (UiSuccess (batch_summary (length new) k)).
Proof.
  destruct (tally_counts_appended_records nat Sample.extract_info
              Sample.ydl_download Sample.now_isoformat Sample.time_sleep
              Sample.repr_container false "best" Sample.start [] eq_refl)
    as [Hbatch _].
  destruct (Hbatch [Sample.good_url; Sample.refused_url])
    as (w' & new & k & Hrun & Hload & Hsum & Hlast).
  exists w', new, k. auto.
Defined.


Lemma resolution_idempotent_witness :
  exists found,
    resolve_entries Sample.repr_container Sample.entries = Ok found /\
    resolve_entries Sample.repr_container found = Ok found.
Proof.
  eexists. split; [reflexivity |].
  apply (resolution_idempotent Sample.repr_container Sample.entries).
  reflexivity.
Defined.

Lemma resolved_entries_are_selectable_witness :
  exists found fields,
    resolve_entries Sample.repr_container Sample.entries = Ok found /\
    found !! 0%nat = Some (VDict fields) /\
    fields !! "url" = Some (VStr "https://www.youtube.com/watch?v=abc") /\
    is_selectable fields = true.
Proof.
  eexists _, _. split; [reflexivity |]. split; [reflexivity |].
  destruct (resolved_entries_are_selectable Sample.repr_container Sample.entries
              _ eq_refl 0%nat _ (VStr "abc") eq_refl eq_refl eq_refl)
    as (u & Hurl & _ & Hsel & _).
  split; [reflexivity | exact Hsel].
Defined.

Lemma malformed_selection_entry_aborts_witness :
  exists w',
    download_selected_videos nat Sample.extract_info Sample.ydl_download
      Sample.now_isoformat Sample.time_sleep Sample.repr_container
      [VDict (<["id" := VStr "abc"]> ∅); VStr Sample.good_url;
       VDict (<["url" := VStr Sample.refused_url]> ∅)]
      false "best" Sample.start = (Raise AttributeError, w') /\
    fetch_targets (calls w') = ["https://www.youtube.com/watch?v=abc"] /\
    last (ui w') = Some (UiWrite (processing_header 2 3)).
Proof.
  destruct (malformed_selection_entry_aborts nat Sample.extract_info
              Sample.ydl_download Sample.now_isoformat Sample.time_sleep
              Sample.repr_container [<["id" := VStr "abc"]> ∅]
              (VStr Sample.good_url)
              [VDict (<["url" := VStr Sample.refused_url]> ∅)]
              false "best" Sample.start)
    as (oks & w1 & targets & _ & _ & Hrun & Htargets & Hcalls).
  - repeat constructor.
  - discriminate.
  - eexists. split; [exact Hrun |].
    inversion Htargets as [| ? u ? targets' Hu Hrest]; subst.
    inversion Hrest; subst. injection Hu as <-.
    split; [exact Hcalls | apply last_snoc].
Defined.

Lemma format_file_size_unit_by_log2_witness :
  format_file_size Sample.float_of_str (VInt 5242880) = Ok "5.0 MB" /\
  format_file_size Sample.float_of_str (VInt (-2048)) = Ok "-2048.0 B".
Proof.
  split.
  - destruct (format_file_size_unit_by_log2 Sample.float_of_str 5242880
                ltac:(discriminate) eq_refl) as [Hunit _].
    rewrite Hunit. reflexivity.
  - destruct (format_file_size_unit_by_log2 Sample.float_of_str (-2048)
                ltac:(discriminate) eq_refl) as [_ Hneg].
    rewrite (Hneg eq_refl). reflexivity.
Defined.

Lemma statistics_follow_downloads_witness :
  fst (sidebar_statistics nat
         (snd (download_video_advanced nat Sample.extract_info Sample.ydl_download
                 Sample.now_isoformat (VStr Sample.good_url) false "best" true
                 Sample.start))) = Ok (Some (1, "2:5")).
Proof.
  destruct (statistics_follow_downloads nat Sample.extract_info Sample.ydl_download
              Sample.now_isoformat Sample.good_url false "best" true Sample.start
              (snd (download_video_advanced nat Sample.extract_info
                      Sample.ydl_download Sample.now_isoformat
                      (VStr Sample.good_url) false "best" true Sample.start))
              [] [] 0 eq_refl eq_refl eq_refl eq_refl)
    as (info & l & Hlib & Hstats).
  injection Hlib as <- _.
  destruct Hstats as (text & Htext & ->).
  injection Htext as <-. reflexivity.
Defined.


Lemma newest_download_listed_first_witness :
  exists records' record,
    fst (load_download_history nat
           (snd (download_video_advanced nat Sample.extract_info
                   Sample.ydl_download Sample.now_isoformat
                   (VStr Sample.good_url) false "best" true Sample.start))) =
      Ok (VList records') /\
    recent_records records' = [VDict record] /\
    dom record = record_keys.
Proof.
  destruct (newest_download_listed_first nat Sample.extract_info
              Sample.ydl_download Sample.now_isoformat Sample.good_url false
              "best" true Sample.start
              (snd (download_video_advanced nat Sample.extract_info
                      Sample.ydl_download Sample.now_isoformat
                      (VStr Sample.good_url) false "best" true Sample.start))
              [] eq_refl eq_refl)
    as (records' & record & Hload & Hdom & Hrecent & _).
  exists records', record. auto.
Defined.

Lemma progress_hook_all_or_nothing_witness :
  exists e,
    progress_hook nat (<["filename" := VStr "downloads/Clip.mp4"]> ∅)
      Sample.start = (Raise e, Sample.start).
Proof.
  destruct (progress_hook_all_or_nothing nat
              (<["filename" := VStr "downloads/Clip.mp4"]> ∅) Sample.start)
    as (r & evs & Hhook & _ & _ & Hnothing & Hstatus).
  destruct (Hstatus eq_refl) as [e ->].
  rewrite (Hnothing e eq_refl) in Hhook.
  exists e. exact Hhook.
Defined.

Lemma failure_reported_once_witness :
  exists w' before label e,
    download_video_advanced nat Sample.extract_info Sample.ydl_download
      Sample.now_isoformat (VStr Sample.refused_url) false "best" true
      Sample.start = (Ok false, w') /\
    ui w' = (before ++ [UiError label e])%list /\
    Forall (fun ev => is_error ev = false) before.
Proof.
  destruct (failure_reported_once nat Sample.extract_info Sample.ydl_download
              Sample.now_isoformat Sample.refused_url false "best" Sample.start)
    as (ok & w' & evs & Hdl & Hui & _ & Hfalse).
  assert (Hok : fst (download_video_advanced nat Sample.extract_info
                       Sample.ydl_download Sample.now_isoformat
                       (VStr Sample.refused_url) false "best" true Sample.start) =
                Ok false) by reflexivity.
  rewrite Hdl in Hok. injection Hok as ->.
  destruct (Hfalse eq_refl) as (before & label & e & -> & Hbefore).
  exists w', before, label, e. auto.
Defined.


Lemma search_fails_soft_witness :
  exists w',
    search_youtube_advanced nat Sample.extract_info Sample.repr_container
      "dogs" (VInt 10) "video" Sample.start = (Ok (VList []), w') /\
    ui w' = [UiError "Search error: " (LibraryError "Unsupported URL")].
Proof.
  destruct (search_fails_soft nat Sample.extract_info Sample.repr_container
              "dogs" (VInt 10) "video" Sample.start)
    as (result & w' & evs & Hsearch & _ & _ & Hui & Hevs & Hraise).
  rewrite (Hraise (LibraryError "Unsupported URL") 1%nat eq_refl) in Hui, Hevs.
  destruct Hevs as [[=] | (e & _ & ->)].
  exists w'. auto.
Defined.

Lemma format_duration_edge_cases_witness :
  format_duration (VStr "3:05") = Raise TypeError /\
  format_duration (VInt (-1)) = Ok "59:59" /\
  format_duration (VInt (-1)) = format_duration (VInt 3599).
Proof.
  destruct format_duration_edge_cases as (Hraise & Hneg & Hwrap).
  split; [| split].
  - apply Hraise. auto.
  - rewrite (Hneg (-1)) by lia. reflexivity.
  - apply (Hwrap (-1)); [lia | discriminate].
Defined.



Lemma search_click_session_witness :
  exists state' w',
    search_click nat Sample.extract_info Sample.repr_container "dogs" (VInt 10)
      "video"
      {| selected_videos := VList Sample.entries; search_results := VList [] |}
      Sample.start = (Ok state', w') /\
    search_results state' = VList [] /\
    selected_videos state' = VList Sample.entries /\
    ui w' = [UiError "Search error: " (LibraryError "Unsupported URL");
             UiInfo "🤷‍♂️ No videos found."].
Proof.
  destruct (search_click_session nat Sample.extract_info Sample.repr_container
              "dogs" (VInt 10) "video"
              {| selected_videos := VList Sample.entries;
                 search_results := VList [] |} Sample.start)
    as (state' & w' & Hclick & _ & _ & Hsearch).
  destruct (Hsearch ltac:(discriminate)) as (_ & _ & Hraise).
  destruct (Hraise (LibraryError "Unsupported URL") 1%nat eq_refl)
    as (Hresults & Hselected & Hui).
  exists state', w'. auto.
Defined.

Lemma quick_download_fetches_twice_witness :
  exists w',
    quick_download nat Sample.extract_info Sample.ydl_download
      Sample.now_isoformat Sample.repr_container Sample.float_of_str
      Sample.good_url false "best" Sample.start = (Ok tt, w') /\
    fetch_targets (calls w') = [Sample.good_url; Sample.good_url].
Proof.
  destruct (quick_download_fetches_twice nat Sample.extract_info
              Sample.ydl_download Sample.now_isoformat Sample.repr_container
              Sample.float_of_str Sample.good_url false "best" Sample.start)
    as (w' & Hquick & _ & Hrun).
  destruct (Hrun ltac:(discriminate)) as (_ & Hshown).
  destruct (Hshown Sample.video 1%nat "2:5" "**Views:** Unknown"
              eq_refl eq_refl eq_refl) as (Hcalls & _).
  exists w'. auto.
Defined.

Lemma download_raises_only_on_non_string_witness :
  download_video_advanced nat Sample.extract_info Sample.ydl_download
    Sample.now_isoformat (VInt 7) false "best" true Sample.start =
    (Raise TypeError, Sample.start).
Proof.
  destruct (download_raises_only_on_non_string nat Sample.extract_info
              Sample.ydl_download Sample.now_isoformat (VInt 7) false "best" true
              Sample.start) as [[_ Hraises] Hwhen].
  destruct (Hraises ltac:(discriminate)) as (e & w' & Hdl).
  destruct (Hwhen e w' Hdl) as [-> _].
  rewrite Hdl. f_equal. f_equal.
  assert (Hfst : fst (download_video_advanced nat Sample.extract_info
                        Sample.ydl_download Sample.now_isoformat (VInt 7) false
                        "best" true Sample.start) = Raise TypeError) by reflexivity.
  rewrite Hdl in Hfst. injection Hfst as ->. reflexivity.
Defined.

